(** * HTML Scraper API (app.py): the [/scrape] endpoint

    A shallow embedding of [verify_token] and [scrape_url].  The handler is
    a straight-line script over an external browser (Playwright), wrapped in
    Python's [try]/[except]/[finally] and [async with].  It is embedded in a
    small monad that reads the outcomes of the external calls from a
    [World], records every external call and every log line in a trace, and
    propagates Python exceptions. *)

From Stdlib Require Import ZArith Ascii String List Bool Lia DecimalString.
Import ListNotations.
Open Scope string_scope.
Open Scope Z_scope.

(** ** Python exceptions

    The handlers of app.py tell exceptions apart by three tests only:
    [except asyncio.TimeoutError], [except Exception] and, implicitly, what
    neither catches.  [HTTPException] is kept apart because the code builds
    it; it is a subclass of [Exception]. *)

Inductive exn : Type :=
| AsyncioTimeoutError (msg : string)
| HTTPException (status_code : Z) (detail : string)
                (headers : list (string * string))
| PyException (cls msg : string)
    (* any other subclass of Exception, e.g. TypeError or a browser error *)
| PyBaseException (cls msg : string).
    (* BaseException outside Exception, e.g. CancelledError *)

Definition isinstance_TimeoutError (e : exn) : bool :=
  match e with AsyncioTimeoutError _ => true | _ => false end.

Definition isinstance_Exception (e : exn) : bool :=
  match e with PyBaseException _ _ => false | _ => true end.

Inductive outcome (A : Type) : Type :=
| Returns (a : A)
| Raises (e : exn).
Arguments Returns {A} a.
Arguments Raises {A} e.

(** ** Data model (lines 22-33) *)

(** A validated [pydantic.HttpUrl]; [url_str] is what [str(url)] gives. *)
Record HttpUrl : Type := { url_str : string }.

Module ScrapeRequest.
Record t : Type := {
  url : HttpUrl;
  wait_for_selector : option string;
  wait_time : option Z;
  timeout : option Z
}.
End ScrapeRequest.

Module ScrapeResponse.
Record t : Type := {
  html : string;
  url : string;
  status_code : Z;
  success : bool;
  error : option string
}.
End ScrapeResponse.

(** A field of the JSON body: left out, or given ([null] is [Given None]).
    Values of the wrong JSON type are outside the model. *)
Inductive field (A : Type) : Type :=
| Omitted
| Given (v : option A).
Arguments Omitted {A}.
Arguments Given {A} v.

Definition field_default {A : Type} (d : option A) (f : field A) : option A :=
  match f with Omitted => d | Given v => v end.

Record RawBody : Type := {
  raw_url : option string;
  raw_wait_for_selector : field string;
  raw_wait_time : field Z;
  raw_timeout : field Z
}.

(** The navigation response of Playwright; only [status] is read. *)
Record Response : Type := { status : Z }.

Record HTTPAuthorizationCredentials : Type := {
  scheme : string;
  credentials : string
}.

(** ** The external world and the trace *)

Inductive event : Type :=
| EvStart                                  (* async_playwright().__aenter__ *)
| EvLaunch (headless : bool) (args : list string)
| EvNewPage (user_agent : string)
| EvSetViewport (width height : Z)
| EvGoto (url : string) (timeout_ms : Z) (wait_until : string)
| EvWaitForSelector (selector : string) (timeout_ms : Z)
| EvSleep (seconds : Z)
| EvContent
| EvClose                                  (* browser.close() *)
| EvStop                                   (* async_playwright().__aexit__ *)
| EvLogWarning (msg : string)
| EvLogError (msg : string).

(** What each awaited call answers.  Every call is made at most once per
    request, so one answer per call (as a function of its arguments) is the
    general case. *)
Record World : Type := {
  async_playwright_start : outcome unit;
  chromium_launch : bool -> list string -> outcome unit;
  browser_new_page : string -> outcome unit;
  page_set_viewport_size : Z -> Z -> outcome unit;
  page_goto : string -> Z -> string -> outcome (option Response);
  page_wait_for_selector : string -> Z -> outcome unit;
  asyncio_sleep : Z -> outcome unit;
  page_content : outcome string;
  browser_close : outcome unit;
  async_playwright_stop : outcome unit
}.

(** ** The monad: reader of the world, writer of the trace, exceptions *)

Definition M (A : Type) : Type := World -> list event * outcome A.

Definition ret {A : Type} (a : A) : M A := fun _ => ([], Returns a).

Definition raise {A : Type} (e : exn) : M A := fun _ => ([], Raises e).

Definition bind {A B : Type} (m : M A) (k : A -> M B) : M B :=
  fun w =>
    match m w with
    | (t1, Returns a) => let (t2, o) := k a w in ((t1 ++ t2)%list, o)
    | (t1, Raises e) => (t1, Raises e)
    end.

Notation "x <- m ;; k" := (bind m (fun x => k))
  (at level 61, m at next level, right associativity).
Notation "m ;;; k" := (bind m (fun _ => k))
  (at level 61, right associativity).

(** An awaited external call: recorded, then answered by the world. *)
Definition call {A : Type} (ev : event) (answer : World -> outcome A) : M A :=
  fun w => ([ev], answer w).

Definition emit (ev : event) : M unit := fun _ => ([ev], Returns tt).

(** [try: body finally: fin].  The finaliser runs on every outcome of the
    body; an exception of the finaliser replaces the body's outcome. *)
Definition try_finally {A : Type} (body : M A) (fin : M unit) : M A :=
  fun w =>
    let (t1, o) := body w in
    let (t2, f) := fin w in
    ((t1 ++ t2)%list, match f with Raises e => Raises e | Returns _ => o end).

(** [try: body except ...]: [handler e] is [None] when no clause matches
    [e], which then propagates. *)
Definition try_except {A : Type} (body : M A) (handler : exn -> option (M A))
  : M A :=
  fun w =>
    match body w with
    | (t1, Returns a) => (t1, Returns a)
    | (t1, Raises e) =>
        match handler e with
        | Some k => let (t2, o) := k w in ((t1 ++ t2)%list, o)
        | None => (t1, Raises e)
        end
    end.

(** [async with enter as p: body].  Playwright's [__aexit__] never
    suppresses an exception, so it acts as a finaliser. *)
Definition async_with {A B : Type} (enter : M A) (leave : M unit)
  (body : A -> M B) : M B :=
  p <- enter ;; try_finally (body p) leave.

(** ** Python expressions used by the handler *)

Definition str_int (n : Z) : string := NilZero.string_of_int (Z.to_int n).

Definition str_optional_int (n : option Z) : string :=
  match n with Some n => str_int n | None => "None" end.

(** [request.timeout * 1000]: a TypeError when the field is [None]. *)
Definition py_mul (a : option Z) (b : Z) : M Z :=
  match a with
  | Some a => ret (a * b)
  | None =>
      raise (PyException "TypeError"
               "unsupported operand type(s) for *: 'NoneType' and 'int'")
  end.

Definition truthy_str (s : option string) : bool :=
  match s with Some s => negb (s =? "")%string | None => false end.

Definition truthy_int (n : option Z) : bool :=
  match n with Some n => negb (n =? 0) | None => false end.

Definition gt_zero (n : option Z) : bool :=
  match n with Some n => 0 <? n | None => false end.

(** ** Configuration (lines 17-20) *)

Definition REQUEST_TIMEOUT : Z := 30000.

Definition USER_AGENT : string :=
  "Mozilla/5.0 (Windows NT 10.0; Win64; x64) AppleWebKit/537.36 (KHTML, like Gecko) Chrome/91.0.4472.124 Safari/537.36".

Definition launch_args : list string :=
  [ "--no-sandbox"; "--disable-setuid-sandbox"; "--disable-dev-shm-usage";
    "--disable-accelerated-2d-canvas"; "--no-first-run"; "--no-zygote";
    "--disable-gpu" ].

(** ** What FastAPI sends for the outcome of the endpoint *)

Inductive http_response : Type :=
| Response200 (body : ScrapeResponse.t)
| ErrorResponse (status_code : Z) (detail : string)
                (headers : list (string * string))
| ValidationError422
| Unhandled (e : exn).

Definition response_of {A : Type} (ok : A -> http_response) (o : outcome A)
  : http_response :=
  match o with
  | Returns a => ok a
  | Raises (HTTPException s d h) => ErrorResponse s d h
  | Raises e => Unhandled e
  end.

Definition http_status (r : http_response) : option Z :=
  match r with
  | Response200 _ => Some 200
  | ErrorResponse s _ _ => Some s
  | ValidationError422 => Some 422
  | Unhandled _ => None
  end.

(** ** Stand-ins for the framework

    Used only to run the endpoint on concrete requests. *)

(** [str(e)] as [status: detail]. *)
Definition HTTPException_str_colon (s : Z) (d : string) : string :=
  str_int s ++ ": " ++ d.

(** Python's [str.lower] on ASCII letters. *)
Definition ascii_lower (c : ascii) : ascii :=
  let n := nat_of_ascii c in
  if ((65 <=? n) && (n <=? 90))%nat then ascii_of_nat (n + 32) else c.

Fixpoint str_lower (s : string) : string :=
  match s with
  | EmptyString => EmptyString
  | String c s' => String (ascii_lower c) (str_lower s')
  end.

(** Python's [s.partition(" ")]: what comes before the first space and
    what comes after it (all of [s] and nothing when there is none). *)
Fixpoint partition_space (s : string) : string * string :=
  match s with
  | EmptyString => (EmptyString, EmptyString)
  | String c s' =>
      if Ascii.eqb c " "%char then (EmptyString, s')
      else let (before, after) := partition_space s' in
           (String c before, after)
  end.

(** The authority of a URL ends at the first /, ? or #. *)
Fixpoint split_authority (s : string) : string * string :=
  match s with
  | EmptyString => (EmptyString, EmptyString)
  | String c s' =>
      if (Ascii.eqb c "/" || Ascii.eqb c "?" || Ascii.eqb c "#")%bool
      then (EmptyString, s)
      else let (authority, tail) := split_authority s' in
           (String c authority, tail)
  end.

Fixpoint has_char (c : ascii) (s : string) : bool :=
  match s with
  | EmptyString => false
  | String c' s' => (Ascii.eqb c c' || has_char c s')%bool
  end.

(** A stand-in for pydantic's [HttpUrl] on URLs of the shape
    scheme://host, optionally followed by a path, a query or a fragment.
    As pydantic does, it asks for the scheme http or https, lower-cases
    the scheme and the host, and writes an empty path as /; so [str] of
    the URL made from https://example.com is https://example.com/.  URLs
    with user information or a port are not modelled and turned down. *)
Definition HttpUrl_normalise (s : string) : option HttpUrl :=
  match index 0 "://" s with
  | None => None
  | Some i =>
      let scheme := str_lower (substring 0 i s) in
      let rest := substring (i + 3) (String.length s - (i + 3)) s in
      let (authority, tail) := split_authority rest in
      if (((scheme =? "http") || (scheme =? "https"))%string
          && negb (authority =? "")%string
          && negb (has_char "@" authority)
          && negb (has_char ":" authority))%bool
      then Some {| url_str :=
                     scheme ++ "://" ++ str_lower authority
                     ++ (if prefix "/" tail then tail else "/" ++ tail) |}
      else None
  end.

(** ** The bearer scheme of the framework *)

(** What the scheme raises when it turns a request down. *)
Definition not_authenticated : exn :=
  HTTPException 401 "Not authenticated" [("WWW-Authenticate", "Bearer")].

(** Modelled from the spec: [security = HTTPBearer()] (line 15) is a class
    of the web framework and is not under src/.  The spec (sections 6 and
    7) has the token arrive in the header Authorization: Bearer <token>
    and has a missing token answered, like a bad one, by 401 with a
    challenge header.  The reading of the header is the framework's: the
    value is split at its first space, the scheme is compared with bearer
    whatever its case, and a request without header, without scheme,
    without token or with another scheme is turned down. *)
Definition HTTPBearer (authorization : option string)
  : outcome HTTPAuthorizationCredentials :=
  match authorization with
  | None => Raises not_authenticated
  | Some header =>
      let (scheme, credentials) := partition_space header in
      if ((scheme =? "") || (credentials =? ""))%string
      then Raises not_authenticated
      else if (str_lower scheme =? "bearer")%string
           then Returns {| scheme := scheme; credentials := credentials |}
           else Raises not_authenticated
  end.

(** The token a request presents, if the scheme lets it through. *)
Definition presented_token (authorization : option string) : option string :=
  match HTTPBearer authorization with
  | Returns c => Some (credentials c)
  | Raises _ => None
  end.

Section Scraper.

(** The process environment variable read at line 18. *)
Variable SCRAPER_AUTH_TOKEN : option string.

(** [str(e)] of an [HTTPException]; it belongs to the web framework. *)
Variable HTTPException_str : Z -> string -> string.

(** pydantic's validation of the [url] field. *)
Variable HttpUrl_validate : string -> option HttpUrl.

(** [security = HTTPBearer()] (line 15), applied to the Authorization
    header of the request. *)
Variable security : option string -> outcome HTTPAuthorizationCredentials.

Definition VALID_TOKEN : string :=
  match SCRAPER_AUTH_TOKEN with
  | Some v => v
  | None => "your-secret-token-here"
  end.

Definition str_exn (e : exn) : string :=
  match e with
  | AsyncioTimeoutError msg => msg
  | HTTPException s d _ => HTTPException_str s d
  | PyException _ msg => msg
  | PyBaseException _ msg => msg
  end.

(** The schema of lines 22-26: [url] is required and validated, the three
    other fields are optional, unconstrained, with defaults. *)
Definition ScrapeRequest_validate (raw : RawBody) : option ScrapeRequest.t :=
  match raw_url raw with
  | None => None
  | Some s =>
      match HttpUrl_validate s with
      | None => None
      | Some u =>
          Some {| ScrapeRequest.url := u;
                  ScrapeRequest.wait_for_selector :=
                    field_default None (raw_wait_for_selector raw);
                  ScrapeRequest.wait_time :=
                    field_default (Some 3) (raw_wait_time raw);
                  ScrapeRequest.timeout :=
                    field_default (Some 30) (raw_timeout raw) |}
      end
  end.

(** Lines 35-43. *)
Definition verify_token (c : HTTPAuthorizationCredentials) : outcome string :=
  if (credentials c =? VALID_TOKEN)%string
  then Returns (credentials c)
  else Raises (HTTPException 401 "Invalid authentication token"
                 [("WWW-Authenticate", "Bearer")]).

(** Lines 89-97: the selector wait and its local handler. *)
Definition wait_for_selector_step (request : ScrapeRequest.t) : M unit :=
  if truthy_str (ScrapeRequest.wait_for_selector request) then
    let selector :=
      match ScrapeRequest.wait_for_selector request with
      | Some s => s
      | None => ""
      end in
    try_except
      (t <- py_mul (ScrapeRequest.timeout request) 1000 ;;
       call (EvWaitForSelector selector t)
            (fun w => page_wait_for_selector w selector t))
      (fun e =>
         if isinstance_Exception e then
           Some (emit (EvLogWarning
                         ("Selector " ++ selector ++ " not found: "
                          ++ str_exn e)))
         else None)
  else ret tt.

(** Lines 99-101. *)
Definition wait_time_step (request : ScrapeRequest.t) : M unit :=
  if truthy_int (ScrapeRequest.wait_time request)
     && gt_zero (ScrapeRequest.wait_time request)
  then
    let n := match ScrapeRequest.wait_time request with
             | Some n => n
             | None => 0
             end in
    call (EvSleep n) (fun w => asyncio_sleep w n)
  else ret tt.

(** Lines 70-111: the body of the inner [try]. *)
Definition page_steps (request : ScrapeRequest.t) : M ScrapeResponse.t :=
  call (EvNewPage USER_AGENT) (fun w => browser_new_page w USER_AGENT) ;;;
  call (EvSetViewport 1920 1080)
       (fun w => page_set_viewport_size w 1920 1080) ;;;
  t <- py_mul (ScrapeRequest.timeout request) 1000 ;;
  response <-
    call (EvGoto (url_str (ScrapeRequest.url request)) t "networkidle")
         (fun w => page_goto w (url_str (ScrapeRequest.url request)) t
                     "networkidle") ;;
  match response with
  | None => raise (HTTPException 400 "Failed to load the page" [])
  | Some response =>
      wait_for_selector_step request ;;;
      wait_time_step request ;;;
      html_content <- call EvContent page_content ;;
      ret {| ScrapeResponse.html := html_content;
             ScrapeResponse.url := url_str (ScrapeRequest.url request);
             ScrapeResponse.status_code := status response;
             ScrapeResponse.success := true;
             ScrapeResponse.error := None |}
  end.

(** Lines 54-114: the [async with] block. *)
Definition browser_scope (request : ScrapeRequest.t) : M ScrapeResponse.t :=
  async_with
    (call EvStart async_playwright_start)
    (call EvStop async_playwright_stop)
    (fun _ =>
       call (EvLaunch true launch_args)
            (fun w => chromium_launch w true launch_args) ;;;
       try_finally (page_steps request) (call EvClose browser_close)).

(** Lines 116-126: the two [except] clauses of the outer [try]. *)
Definition scrape_handler (request : ScrapeRequest.t) (e : exn)
  : option (M ScrapeResponse.t) :=
  if isinstance_TimeoutError e then
    Some (raise (HTTPException 408
                   ("Request timeout after "
                    ++ str_optional_int (ScrapeRequest.timeout request)
                    ++ " seconds") []))
  else if isinstance_Exception e then
    Some (emit (EvLogError
                  ("Scraping error for "
                   ++ url_str (ScrapeRequest.url request) ++ ": "
                   ++ str_exn e)) ;;;
          raise (HTTPException 500 ("Scraping failed: " ++ str_exn e) []))
  else None.

(** Lines 46-126. *)
Definition scrape_url (request : ScrapeRequest.t) : M ScrapeResponse.t :=
  try_except (browser_scope request) (scrape_handler request).

(** [POST /scrape] as FastAPI runs it on a body that parsed as a JSON
    object: the dependency chain [security] then [verify_token] is resolved
    first and an exception in it ends the request; then the body is
    checked against the schema; then the handler runs.  A body that is not
    JSON at all is outside the model. *)
Definition post_scrape (authorization : option string) (raw : RawBody)
  : World -> list event * http_response :=
  fun w =>
    match security authorization with
    | Raises e => ([], response_of Response200 (Raises e))
    | Returns c =>
        match verify_token c with
        | Raises e => ([], response_of Response200 (Raises e))
        | Returns _ =>
            match ScrapeRequest_validate raw with
            | None => ([], ValidationError422)
            | Some request =>
                let (tr, o) := scrape_url request w in
                (tr, response_of Response200 o)
            end
        end
    end.

(** ** Concrete worlds and requests, used to run the handler *)

(** Every call succeeds; the target answers 200. *)
Definition world_ok : World :=
  {| async_playwright_start := Returns tt;
     chromium_launch := fun _ _ => Returns tt;
     browser_new_page := fun _ => Returns tt;
     page_set_viewport_size := fun _ _ => Returns tt;
     page_goto := fun _ _ _ => Returns (Some {| status := 200 |});
     page_wait_for_selector := fun _ _ => Returns tt;
     asyncio_sleep := fun _ => Returns tt;
     page_content := Returns "<html><body>Example</body></html>";
     browser_close := Returns tt;
     async_playwright_stop := Returns tt |}.

Definition with_launch (o : outcome unit) (w : World) : World :=
  {| async_playwright_start := async_playwright_start w;
     chromium_launch := fun _ _ => o;
     browser_new_page := browser_new_page w;
     page_set_viewport_size := page_set_viewport_size w;
     page_goto := page_goto w;
     page_wait_for_selector := page_wait_for_selector w;
     asyncio_sleep := asyncio_sleep w;
     page_content := page_content w;
     browser_close := browser_close w;
     async_playwright_stop := async_playwright_stop w |}.

Definition with_goto (o : outcome (option Response)) (w : World) : World :=
  {| async_playwright_start := async_playwright_start w;
     chromium_launch := chromium_launch w;
     browser_new_page := browser_new_page w;
     page_set_viewport_size := page_set_viewport_size w;
     page_goto := fun _ _ _ => o;
     page_wait_for_selector := page_wait_for_selector w;
     asyncio_sleep := asyncio_sleep w;
     page_content := page_content w;
     browser_close := browser_close w;
     async_playwright_stop := async_playwright_stop w |}.

Definition with_wait_for_selector (o : outcome unit) (w : World) : World :=
  {| async_playwright_start := async_playwright_start w;
     chromium_launch := chromium_launch w;
     browser_new_page := browser_new_page w;
     page_set_viewport_size := page_set_viewport_size w;
     page_goto := page_goto w;
     page_wait_for_selector := fun _ _ => o;
     asyncio_sleep := asyncio_sleep w;
     page_content := page_content w;
     browser_close := browser_close w;
     async_playwright_stop := async_playwright_stop w |}.

Definition example_url : HttpUrl := {| url_str := "https://example.com/" |}.

Definition request_of (sel : option string) (wt t : option Z)
  : ScrapeRequest.t :=
  {| ScrapeRequest.url := example_url;
     ScrapeRequest.wait_for_selector := sel;
     ScrapeRequest.wait_time := wt;
     ScrapeRequest.timeout := t |}.

Definition raw_of (sel : field string) (wt t : field Z) : RawBody :=
  {| raw_url := Some "https://example.com/";
     raw_wait_for_selector := sel;
     raw_wait_time := wt;
     raw_timeout := t |}.

(** A browser-side timeout, once as the class the outer handler names and
    once as any other exception class. *)
Definition timeout_asyncio : exn :=
  AsyncioTimeoutError "Timeout 10000ms exceeded.".
Definition timeout_other : exn :=
  PyException "TimeoutError" "Timeout 10000ms exceeded.".

(** The runs used below: a selector that never shows up, a navigation
    that runs out of time, a host that does not resolve. *)
Definition request_late : ScrapeRequest.t :=
  request_of (Some "#late") (Some 3) (Some 10).

Definition raw_late : RawBody :=
  raw_of (Given (Some "#late")) Omitted (Given (Some 10)).

Definition world_selector_timeout (e : exn) : World :=
  with_wait_for_selector (Raises e) world_ok.

Definition world_goto_timeout : World :=
  with_goto (Raises timeout_asyncio) world_ok.

Definition unresolved_host : exn :=
  PyException "Error" "net::ERR_NAME_NOT_RESOLVED at https://example.com/".

Definition world_goto_error : World :=
  with_goto (Raises unresolved_host) world_ok.

Definition with_close (o : outcome unit) (w : World) : World :=
  {| async_playwright_start := async_playwright_start w;
     chromium_launch := chromium_launch w;
     browser_new_page := browser_new_page w;
     page_set_viewport_size := page_set_viewport_size w;
     page_goto := page_goto w;
     page_wait_for_selector := page_wait_for_selector w;
     asyncio_sleep := asyncio_sleep w;
     page_content := page_content w;
     browser_close := o;
     async_playwright_stop := async_playwright_stop w |}.

(** A cancellation of the request: not an [Exception]. *)
Definition cancelled : exn := PyBaseException "CancelledError" "".

(** The browser went away before it could be closed. *)
Definition target_closed : exn :=
  PyException "Error" "Target page, context or browser has been closed".

(** ** Reading a trace *)

Definition is_launch (ev : event) : bool :=
  match ev with EvLaunch _ _ => true | _ => false end.

Definition is_close (ev : event) : bool :=
  match ev with EvClose => true | _ => false end.

Definition is_goto (ev : event) : bool :=
  match ev with EvGoto _ _ _ => true | _ => false end.

Definition is_sleep (ev : event) : bool :=
  match ev with EvSleep _ => true | _ => false end.

(** Calls on the page of the browser. *)
Definition on_page (ev : event) : bool :=
  match ev with
  | EvNewPage _ | EvSetViewport _ _ | EvGoto _ _ _
  | EvWaitForSelector _ _ | EvContent => true
  | _ => false
  end.

(** What happens inside the inner [try]: page calls, the sleep, the
    warning of the selector wait. *)
Definition inside_try (ev : event) : bool :=
  match ev with
  | EvSleep _ | EvLogWarning _ => true
  | _ => on_page ev
  end.

(** What needs a live browser. *)
Definition uses_browser (ev : event) : bool :=
  (is_launch ev || on_page ev || is_close ev)%bool.

Definition count (p : event -> bool) (tr : list event) : nat :=
  length (filter p tr).

(** Every call other than the selector wait succeeds: the navigation gives
    [response] within the deadline of [t] seconds, the content of the page
    is [h]. *)
Definition cooperates (w : World) (request : ScrapeRequest.t) (t : Z)
  (response : Response) (h : string) : Prop :=
  async_playwright_start w = Returns tt
  /\ chromium_launch w true launch_args = Returns tt
  /\ browser_new_page w USER_AGENT = Returns tt
  /\ page_set_viewport_size w 1920 1080 = Returns tt
  /\ ScrapeRequest.timeout request = Some t
  /\ page_goto w (url_str (ScrapeRequest.url request)) (t * 1000)
       "networkidle" = Returns (Some response)
  /\ (forall n, asyncio_sleep w n = Returns tt)
  /\ page_content w = Returns h
  /\ browser_close w = Returns tt
  /\ async_playwright_stop w = Returns tt.

(** The response built at lines 106-111. *)
Definition success_response (request : ScrapeRequest.t) (response : Response)
  (h : string) : ScrapeResponse.t :=
  {| ScrapeResponse.html := h;
     ScrapeResponse.url := url_str (ScrapeRequest.url request);
     ScrapeResponse.status_code := status response;
     ScrapeResponse.success := true;
     ScrapeResponse.error := None |}.

(** Where an exception that leaves the [async with] block can come from:
    an awaited call that raised it, or one of the two exceptions the code
    raises itself.  The selector wait is a source only for what is not an
    [Exception]. *)
Inductive raised_in_scope (w : World) (request : ScrapeRequest.t)
  : exn -> Prop :=
| from_start e :
    async_playwright_start w = Raises e -> raised_in_scope w request e
| from_launch e :
    chromium_launch w true launch_args = Raises e ->
    raised_in_scope w request e
| from_new_page e :
    browser_new_page w USER_AGENT = Raises e -> raised_in_scope w request e
| from_set_viewport_size e :
    page_set_viewport_size w 1920 1080 = Raises e ->
    raised_in_scope w request e
| from_timeout_none :
    ScrapeRequest.timeout request = None ->
    raised_in_scope w request
      (PyException "TypeError"
         "unsupported operand type(s) for *: 'NoneType' and 'int'")
| from_goto e t :
    ScrapeRequest.timeout request = Some t ->
    page_goto w (url_str (ScrapeRequest.url request)) (t * 1000) "networkidle"
    = Raises e ->
    raised_in_scope w request e
| from_null_response t :
    ScrapeRequest.timeout request = Some t ->
    page_goto w (url_str (ScrapeRequest.url request)) (t * 1000) "networkidle"
    = Returns None ->
    raised_in_scope w request (HTTPException 400 "Failed to load the page" [])
| from_wait_for_selector e sel t :
    ScrapeRequest.wait_for_selector request = Some sel ->
    page_wait_for_selector w sel t = Raises e ->
    isinstance_Exception e = false ->
    raised_in_scope w request e
| from_sleep e n :
    asyncio_sleep w n = Raises e -> raised_in_scope w request e
| from_content e :
    page_content w = Raises e -> raised_in_scope w request e
| from_close e :
    browser_close w = Raises e -> raised_in_scope w request e
| from_stop e :
    async_playwright_stop w = Raises e -> raised_in_scope w request e.

(** Two events are calls of the same operation (or log lines of the same
    level), whatever their arguments. *)
Definition same_kind (a b : event) : bool :=
  match a, b with
  | EvStart, EvStart
  | EvLaunch _ _, EvLaunch _ _
  | EvNewPage _, EvNewPage _
  | EvSetViewport _ _, EvSetViewport _ _
  | EvGoto _ _ _, EvGoto _ _ _
  | EvWaitForSelector _ _, EvWaitForSelector _ _
  | EvSleep _, EvSleep _
  | EvContent, EvContent
  | EvClose, EvClose
  | EvStop, EvStop
  | EvLogWarning _, EvLogWarning _
  | EvLogError _, EvLogError _ => true
  | _, _ => false
  end.

Definition is_stop (ev : event) : bool :=
  match ev with EvStop => true | _ => false end.

Definition is_wait_for_selector (ev : event) : bool :=
  match ev with EvWaitForSelector _ _ => true | _ => false end.

(** *** Which failure decides the answer *)

(** The close of the browser and the stop of Playwright both return. *)
Definition teardown_returns (w : World) : Prop :=
  browser_close w = Returns tt /\ async_playwright_stop w = Returns tt.

(** Playwright started, the browser launched, the page opened and sized. *)
Definition page_ready (w : World) : Prop :=
  async_playwright_start w = Returns tt
  /\ chromium_launch w true launch_args = Returns tt
  /\ browser_new_page w USER_AGENT = Returns tt
  /\ page_set_viewport_size w 1920 1080 = Returns tt.

(** The navigation gave [response], and the selector wait, if one is made,
    raises nothing but Exceptions (which lines 96-97 recover from). *)
Definition navigated (w : World) (request : ScrapeRequest.t) (t : Z)
  (response : Response) : Prop :=
  page_ready w
  /\ ScrapeRequest.timeout request = Some t
  /\ page_goto w (url_str (ScrapeRequest.url request)) (t * 1000)
       "networkidle" = Returns (Some response)
  /\ (forall sel e,
        ScrapeRequest.wait_for_selector request = Some sel ->
        page_wait_for_selector w sel (t * 1000) = Raises e ->
        isinstance_Exception e = true).

(** [decisive_failure w request e]: [e] is raised by a step of the request
    other than the selector wait, every step before it returned, and
    nothing raises after it (the tear-down that follows returns); or [e]
    is raised by the tear-down itself, by its last step that raises. *)
Inductive decisive_failure (w : World) (request : ScrapeRequest.t)
  : exn -> Prop :=
| failed_start e :
    async_playwright_start w = Raises e ->
    decisive_failure w request e
| failed_launch e :
    async_playwright_start w = Returns tt ->
    chromium_launch w true launch_args = Raises e ->
    async_playwright_stop w = Returns tt ->
    decisive_failure w request e
| failed_new_page e :
    async_playwright_start w = Returns tt ->
    chromium_launch w true launch_args = Returns tt ->
    browser_new_page w USER_AGENT = Raises e ->
    teardown_returns w ->
    decisive_failure w request e
| failed_set_viewport_size e :
    async_playwright_start w = Returns tt ->
    chromium_launch w true launch_args = Returns tt ->
    browser_new_page w USER_AGENT = Returns tt ->
    page_set_viewport_size w 1920 1080 = Raises e ->
    teardown_returns w ->
    decisive_failure w request e
| failed_timeout_null :
    page_ready w ->
    ScrapeRequest.timeout request = None ->
    teardown_returns w ->
    decisive_failure w request
      (PyException "TypeError"
         "unsupported operand type(s) for *: 'NoneType' and 'int'")
| failed_goto e t :
    page_ready w ->
    ScrapeRequest.timeout request = Some t ->
    page_goto w (url_str (ScrapeRequest.url request)) (t * 1000) "networkidle"
    = Raises e ->
    teardown_returns w ->
    decisive_failure w request e
| failed_sleep e t response n :
    navigated w request t response ->
    ScrapeRequest.wait_time request = Some n ->
    0 < n ->
    asyncio_sleep w n = Raises e ->
    teardown_returns w ->
    decisive_failure w request e
| failed_content e t response :
    navigated w request t response ->
    (forall n,
        ScrapeRequest.wait_time request = Some n ->
        0 < n ->
        asyncio_sleep w n = Returns tt) ->
    page_content w = Raises e ->
    teardown_returns w ->
    decisive_failure w request e
| failed_close e :
    async_playwright_start w = Returns tt ->
    chromium_launch w true launch_args = Returns tt ->
    browser_close w = Raises e ->
    async_playwright_stop w = Returns tt ->
    decisive_failure w request e
| failed_stop e :
    async_playwright_start w = Returns tt ->
    async_playwright_stop w = Raises e ->
    decisive_failure w request e.

(** The body of the scenario of the spec: the URL has no path. *)
Definition raw_scenario : RawBody :=
  {| raw_url := Some "https://example.com";
     raw_wait_for_selector := Omitted;
     raw_wait_time := Omitted;
     raw_timeout := Given (Some 10) |}.

(** A selector that Playwright cannot parse: an error, not a timeout. *)
Definition selector_error : exn :=
  PyException "Error" "Unexpected token while parsing css selector".

Definition raw_bad_selector : RawBody :=
  raw_of (Given (Some "div[")) Omitted Omitted.

(** ** Proof support *)

Local Open Scope list_scope.

Ltac unfold_handler :=
  unfold scrape_url, browser_scope, page_steps, wait_for_selector_step,
    wait_time_step, scrape_handler, py_mul, async_with, try_except,
    try_finally, bind, call, emit, ret, raise in *.

(** One step of symbolic execution: use a known answer of the world, or
    split on the next thing the code inspects. *)
Ltac exec_step :=
  match goal with
  | H : ?x = _ |- context [match ?x with _ => _ end] => rewrite H
  | |- context [match ?x with _ => _ end] =>
      lazymatch x with
      | context [match _ with _ => _ end] => fail
      | _ => destruct x eqn:?
      end
  end; cbn [fst snd app] in *.

Ltac exec := unfold_handler; cbn [fst snd app]; repeat exec_step.

(** Splits on the class tests of the [except] clauses. *)
Ltac split_handler :=
  repeat match goal with
    | |- context [isinstance_TimeoutError ?e] =>
        destruct (isinstance_TimeoutError e)
    | |- context [isinstance_Exception ?e] =>
        destruct (isinstance_Exception e)
    end;
  cbn [fst snd app].

Lemma count_app (p : event -> bool) (t1 t2 : list event) :
  count p (t1 ++ t2) = (count p t1 + count p t2)%nat.
Proof. unfold count. now rewrite filter_app, length_app. Qed.

Lemma count_cons (p : event -> bool) (ev : event) (tr : list event) :
  count p (ev :: tr) = ((if p ev then 1 else 0) + count p tr)%nat.
Proof. unfold count. cbn. now destruct (p ev). Qed.

Lemma count_nil (p : event -> bool) : count p [] = 0%nat.
Proof. reflexivity. Qed.

Lemma count_none (p : event -> bool) (tr : list event) :
  Forall (fun ev => p ev = false) tr -> count p tr = 0%nat.
Proof.
  unfold count. induction 1 as [|ev tr Hev _ IH]; cbn; [reflexivity|].
  now rewrite Hev.
Qed.

(** *** The three layers of the handler, one at a time *)

(** The inner [try] body only touches the page, sleeps and warns. *)
Lemma page_steps_inside_try (request : ScrapeRequest.t) (w : World) :
  Forall (fun ev => inside_try ev = true) (fst (page_steps request w)).
Proof.
  exec; repeat constructor.
Qed.

(** With a browser at hand the scope is: launch, inner body, close, stop. *)
Lemma browser_scope_launched (request : ScrapeRequest.t) (w : World) :
  async_playwright_start w = Returns tt ->
  chromium_launch w true launch_args = Returns tt ->
  fst (browser_scope request w)
  = EvStart :: EvLaunch true launch_args
      :: fst (page_steps request w) ++ [EvClose; EvStop].
Proof.
  intros Hs Hl. unfold browser_scope, async_with, try_finally, bind, call.
  rewrite Hs, Hl. destruct (page_steps request w) as [mid o]. cbn.
  now rewrite <- app_assoc.
Qed.

(** Without a browser nothing is opened and nothing is closed. *)
Lemma browser_scope_not_launched (request : ScrapeRequest.t) (w : World) :
  (forall u, chromium_launch w true launch_args <> Returns u) ->
  count on_page (fst (browser_scope request w)) = 0%nat
  /\ count is_close (fst (browser_scope request w)) = 0%nat.
Proof.
  intros Hl. unfold browser_scope, async_with, try_finally, bind, call.
  destruct (async_playwright_start w); cbn; [|split; reflexivity].
  destruct (chromium_launch w true launch_args) as [u|e] eqn:E.
  - now destruct (Hl u).
  - destruct (async_playwright_stop w); cbn; split; reflexivity.
Qed.

(** The outer handlers add at most one line to the log. *)
Lemma scrape_url_trace (request : ScrapeRequest.t) (w : World) :
  exists logs,
    fst (scrape_url request w) = fst (browser_scope request w) ++ logs
    /\ Forall (fun ev => exists msg, ev = EvLogError msg) logs.
Proof.
  unfold scrape_url, try_except.
  destruct (browser_scope request w) as [tr [r|e]]; cbn.
  - exists []. now rewrite app_nil_r.
  - unfold scrape_handler.
    destruct (isinstance_TimeoutError e); cbn.
    + exists []. now rewrite app_nil_r.
    + destruct (isinstance_Exception e); cbn.
      * eexists. split; [reflexivity|]. repeat constructor. now eexists.
      * exists []. now rewrite app_nil_r.
Qed.

(** A response that leaves the handler is the one the inner [try] body
    returned: no clause of the handler builds one. *)
Lemma scrape_url_returns_inner (request : ScrapeRequest.t) (w : World)
  (r : ScrapeResponse.t) :
  snd (scrape_url request w) = Returns r ->
  snd (page_steps request w) = Returns r.
Proof.
  unfold scrape_url, try_except, scrape_handler, browser_scope, async_with,
    try_finally, bind, call, emit, raise.
  destruct (async_playwright_start w); cbn [fst snd app].
  - destruct (chromium_launch w true launch_args); cbn [fst snd app].
    + destruct (page_steps request w) as [mid o]; cbn [fst snd app].
      destruct (browser_close w), (async_playwright_stop w), o;
        cbn [fst snd app]; split_handler; intros H; (exact H || discriminate H).
    + destruct (async_playwright_stop w); cbn [fst snd app]; split_handler;
        intros H; discriminate H.
  - split_handler; intros H; discriminate H.
Qed.

(** The inner [try] body never launches and navigates at most once. *)
Lemma page_steps_one_goto (request : ScrapeRequest.t) (w : World) :
  count is_launch (fst (page_steps request w)) = 0%nat
  /\ (count is_goto (fst (page_steps request w)) <= 1)%nat.
Proof.
  exec; cbn; lia.
Qed.

(** A response is returned only after a navigation that produced a response
    object and a successful read of the page content, and it is built from
    exactly those. *)
Lemma scrape_url_returns (request : ScrapeRequest.t) (w : World)
  (r : ScrapeResponse.t) :
  snd (scrape_url request w) = Returns r ->
  exists t response h,
    ScrapeRequest.timeout request = Some t
    /\ page_goto w (url_str (ScrapeRequest.url request)) (t * 1000)
         "networkidle" = Returns (Some response)
    /\ page_content w = Returns h
    /\ r = {| ScrapeResponse.html := h;
              ScrapeResponse.url := url_str (ScrapeRequest.url request);
              ScrapeResponse.status_code := status response;
              ScrapeResponse.success := true;
              ScrapeResponse.error := None |}.
Proof.
  intros H. apply scrape_url_returns_inner in H. revert H.
  exec; intros H; try discriminate H; injection H as <-; eauto 10.
Qed.

(** One launch and one navigation at most, whatever happens. *)
Lemma single_attempt (request : ScrapeRequest.t) (w : World) :
  (count is_launch (fst (scrape_url request w)) <= 1)%nat
  /\ (count is_goto (fst (scrape_url request w)) <= 1)%nat.
Proof.
  destruct (scrape_url_trace request w) as (logs & -> & Hlogs).
  assert (Hl : count is_launch logs = 0%nat /\ count is_goto logs = 0%nat).
  { split; apply count_none; (eapply Forall_impl; [|exact Hlogs]);
      now intros ev [msg ->]. }
  destruct Hl as [Hl Hg]. rewrite !count_app, Hl, Hg.
  pose proof (page_steps_one_goto request w) as [Hpl Hpg].
  unfold browser_scope, async_with, try_finally, bind, call.
  destruct (async_playwright_start w); cbn [fst snd app].
  - destruct (chromium_launch w true launch_args); cbn [fst snd app].
    + destruct (page_steps request w) as [mid o]; cbn [fst snd app] in *.
      destruct (browser_close w), (async_playwright_stop w);
        cbn [fst snd app];
        rewrite ?count_cons, ?count_app, ?count_cons, ?count_nil;
        cbn [is_launch is_goto]; lia.
    + destruct (async_playwright_stop w); cbn [fst snd app];
        rewrite ?count_cons, ?count_nil; cbn [is_launch is_goto]; lia.
  - rewrite ?count_cons, ?count_nil; cbn [is_launch is_goto]; lia.
Qed.

(** The first [except] clause of the outer [try]. *)
Lemma outer_handler_timeout (request : ScrapeRequest.t) (w : World)
  (tr : list event) (msg : string) :
  browser_scope request w = (tr, Raises (AsyncioTimeoutError msg)) ->
  scrape_url request w
  = (tr, Raises (HTTPException 408
                   ("Request timeout after "
                    ++ str_optional_int (ScrapeRequest.timeout request)
                    ++ " seconds")%string [])).
Proof.
  intros H. unfold scrape_url, try_except. rewrite H. cbn.
  now rewrite app_nil_r.
Qed.

(** The second [except] clause of the outer [try]. *)
Lemma outer_handler_exception (request : ScrapeRequest.t) (w : World)
  (tr : list event) (e : exn) :
  browser_scope request w = (tr, Raises e) ->
  isinstance_TimeoutError e = false ->
  isinstance_Exception e = true ->
  scrape_url request w
  = (tr ++ [EvLogError ("Scraping error for "
                        ++ url_str (ScrapeRequest.url request) ++ ": "
                        ++ str_exn e)%string],
     Raises (HTTPException 500 ("Scraping failed: " ++ str_exn e)%string [])).
Proof.
  intros H Ht He. unfold scrape_url, try_except, scrape_handler.
  rewrite H, Ht, He. reflexivity.
Qed.

(** An exception of the navigation leaves the scope as it is when the
    tear-down returns normally. *)
Lemma goto_exception_leaves_scope (request : ScrapeRequest.t) (w : World)
  (t : Z) (e : exn) :
  async_playwright_start w = Returns tt ->
  chromium_launch w true launch_args = Returns tt ->
  browser_new_page w USER_AGENT = Returns tt ->
  page_set_viewport_size w 1920 1080 = Returns tt ->
  ScrapeRequest.timeout request = Some t ->
  page_goto w (url_str (ScrapeRequest.url request)) (t * 1000) "networkidle"
  = Raises e ->
  browser_close w = Returns tt ->
  async_playwright_stop w = Returns tt ->
  browser_scope request w
  = ([EvStart; EvLaunch true launch_args; EvNewPage USER_AGENT;
      EvSetViewport 1920 1080;
      EvGoto (url_str (ScrapeRequest.url request)) (t * 1000) "networkidle";
      EvClose; EvStop], Raises e).
Proof.
  intros Hs Hl Hn Hv Ht Hg Hc Hx.
  unfold browser_scope, page_steps, py_mul, async_with, try_finally, bind,
    call, ret.
  now rewrite Hs, Hl, Hn, Hv, Ht, Hg, Hc, Hx.
Qed.

(** The [raise HTTPException(status_code=400, ...)] of line 84 leaves the
    scope as an ordinary exception. *)
Lemma null_response_leaves_scope (request : ScrapeRequest.t) (w : World)
  (t : Z) :
  async_playwright_start w = Returns tt ->
  chromium_launch w true launch_args = Returns tt ->
  browser_new_page w USER_AGENT = Returns tt ->
  page_set_viewport_size w 1920 1080 = Returns tt ->
  ScrapeRequest.timeout request = Some t ->
  page_goto w (url_str (ScrapeRequest.url request)) (t * 1000) "networkidle"
  = Returns None ->
  browser_close w = Returns tt ->
  async_playwright_stop w = Returns tt ->
  snd (browser_scope request w)
  = Raises (HTTPException 400 "Failed to load the page" []).
Proof.
  intros Hs Hl Hn Hv Ht Hg Hc Hx.
  unfold browser_scope, page_steps, py_mul, async_with, try_finally, bind,
    call, ret, raise.
  now rewrite Hs, Hl, Hn, Hv, Ht, Hg, Hc, Hx.
Qed.

Lemma inside_try_not_launch_close (tr : list event) :
  Forall (fun ev => inside_try ev = true) tr ->
  Forall (fun ev => is_launch ev = false) tr
  /\ Forall (fun ev => is_close ev = false) tr.
Proof.
  induction 1 as [|ev tr Hev _ [IH1 IH2]]; [split; constructor|].
  split; constructor; trivial; destruct ev; (reflexivity || discriminate Hev).
Qed.

(** The answer of the handler depends on the page only through the
    outcome of the inner [try] body. *)
Lemma scrape_url_outcome_congr (request : ScrapeRequest.t) (w w' : World) :
  async_playwright_start w = async_playwright_start w' ->
  chromium_launch w true launch_args = chromium_launch w' true launch_args ->
  browser_close w = browser_close w' ->
  async_playwright_stop w = async_playwright_stop w' ->
  snd (page_steps request w) = snd (page_steps request w') ->
  snd (scrape_url request w) = snd (scrape_url request w').
Proof.
  intros Hs Hl Hc Hx Hp.
  unfold scrape_url, try_except, scrape_handler, browser_scope, async_with,
    try_finally, bind, call, emit, raise.
  rewrite <- Hs, <- Hl, <- Hc, <- Hx.
  destruct (page_steps request w) as [m1 o1].
  destruct (page_steps request w') as [m2 o2].
  cbn [snd] in Hp. subst o2.
  destruct (async_playwright_start w); cbn [fst snd app].
  - destruct (chromium_launch w true launch_args); cbn [fst snd app].
    + destruct (browser_close w), (async_playwright_stop w), o1;
        cbn [fst snd app]; split_handler; reflexivity.
    + destruct (async_playwright_stop w); cbn [fst snd app]; split_handler;
        reflexivity.
  - split_handler; reflexivity.
Qed.

(** Lines 91-97: an [Exception] of the selector wait ends in the local
    handler, and the inner body goes on as after a wait that returned. *)
Lemma selector_wait_recovered (request : ScrapeRequest.t) (w : World)
  (sel : string) (t : Z) (e : exn) :
  ScrapeRequest.wait_for_selector request = Some sel ->
  ScrapeRequest.timeout request = Some t ->
  page_wait_for_selector w sel (t * 1000) = Raises e ->
  isinstance_Exception e = true ->
  snd (page_steps request w)
  = snd (page_steps request (with_wait_for_selector (Returns tt) w)).
Proof.
  intros Hsel Ht Hw He.
  unfold page_steps, wait_for_selector_step, wait_time_step, py_mul,
    try_except, bind, call, emit, ret, raise.
  rewrite Hsel, Ht.
  repeat (cbn [fst snd app with_wait_for_selector browser_new_page
               page_set_viewport_size page_goto page_wait_for_selector
               asyncio_sleep page_content];
          exec_step);
    reflexivity.
Qed.

(** The sleep of lines 100-101 returns in a cooperating world. *)
Lemma wait_time_step_returns (request : ScrapeRequest.t) (w : World) :
  (forall n, asyncio_sleep w n = Returns tt) ->
  snd (wait_time_step request w) = Returns tt.
Proof.
  intros Hz. unfold wait_time_step, call, ret.
  destruct (truthy_int _ && gt_zero _)%bool; cbn [snd]; [apply Hz|reflexivity].
Qed.

(** The run of a request in a cooperating world whose selector step does
    not propagate anything. *)
Lemma scrape_url_success (request : ScrapeRequest.t) (w : World) (t : Z)
  (response : Response) (h : string) :
  cooperates w request t response h ->
  snd (wait_for_selector_step request w) = Returns tt ->
  scrape_url request w
  = ([EvStart; EvLaunch true launch_args; EvNewPage USER_AGENT;
      EvSetViewport 1920 1080;
      EvGoto (url_str (ScrapeRequest.url request)) (t * 1000) "networkidle"]
       ++ fst (wait_for_selector_step request w)
       ++ fst (wait_time_step request w)
       ++ [EvContent; EvClose; EvStop],
     Returns (success_response request response h)).
Proof.
  intros (Hs & Hl & Hn & Hv & Ht & Hg & Hz & Hh & Hc & Hx) Hsel.
  pose proof (wait_time_step_returns request w Hz) as Hwt.
  unfold scrape_url, browser_scope, page_steps, py_mul, async_with,
    try_except, try_finally, bind, call, ret.
  rewrite Hs, Hl, Hn, Hv, Ht, Hg, Hh, Hc, Hx.
  destruct (wait_for_selector_step request w) as [t1 o1].
  destruct (wait_time_step request w) as [t2 o2].
  cbn [fst snd] in *. subst o1 o2. cbn [fst snd app].
  rewrite <- !app_assoc. reflexivity.
Qed.

(** Lines 91-97 on a selector wait that raises an [Exception]. *)
Lemma wait_for_selector_step_miss (request : ScrapeRequest.t) (w : World)
  (sel : string) (t : Z) (e : exn) :
  ScrapeRequest.wait_for_selector request = Some sel ->
  sel <> ""%string ->
  ScrapeRequest.timeout request = Some t ->
  page_wait_for_selector w sel (t * 1000) = Raises e ->
  isinstance_Exception e = true ->
  wait_for_selector_step request w
  = ([EvWaitForSelector sel (t * 1000);
      EvLogWarning ("Selector " ++ sel ++ " not found: " ++ str_exn e)%string],
     Returns tt).
Proof.
  intros Hsel Hne Ht Hw He.
  unfold wait_for_selector_step, py_mul, try_except, bind, call, emit, ret.
  rewrite Hsel, Ht. cbn [truthy_str].
  destruct (String.eqb_spec sel "") as [->|_]; [now destruct Hne|].
  cbn [negb]. now rewrite Hw, He.
Qed.

(** The selector step propagates nothing but what is not an [Exception]. *)
Lemma wait_for_selector_step_returns (request : ScrapeRequest.t) (w : World)
  (t : Z) :
  ScrapeRequest.timeout request = Some t ->
  (forall s ms e,
      page_wait_for_selector w s ms = Raises e ->
      isinstance_Exception e = true) ->
  snd (wait_for_selector_step request w) = Returns tt.
Proof.
  intros Ht Hw.
  unfold wait_for_selector_step, py_mul, try_except, bind, call, emit, ret.
  rewrite Ht.
  destruct (truthy_str _); [|reflexivity].
  destruct (page_wait_for_selector w _ _) as [[]|e] eqn:E; [reflexivity|].
  now rewrite (Hw _ _ _ E).
Qed.

(** An authenticated request with a valid body reaches the handler. *)
Lemma post_scrape_authenticated (authorization : option string)
  (raw : RawBody) (w : World) (c : HTTPAuthorizationCredentials)
  (request : ScrapeRequest.t) :
  security authorization = Returns c ->
  credentials c = VALID_TOKEN ->
  ScrapeRequest_validate raw = Some request ->
  post_scrape authorization raw w
  = (fst (scrape_url request w),
     response_of Response200 (snd (scrape_url request w))).
Proof.
  intros Hc Htok Hv. unfold post_scrape, verify_token.
  rewrite Hc, Htok, String.eqb_refl, Hv.
  now destruct (scrape_url request w).
Qed.

(** *** Where the events of a trace come from *)

(** The scope adds the start, the launch, the close and the stop around the
    trace of the inner body, or never reaches that body. *)
Lemma browser_scope_trace_cases (request : ScrapeRequest.t) (w : World) :
  fst (browser_scope request w) = [EvStart]
  \/ fst (browser_scope request w)
     = [EvStart; EvLaunch true launch_args; EvStop]
  \/ fst (browser_scope request w)
     = EvStart :: EvLaunch true launch_args
         :: fst (page_steps request w) ++ [EvClose; EvStop].
Proof.
  unfold browser_scope, async_with, try_finally, bind, call.
  destruct (async_playwright_start w); cbn [fst snd app]; [|now left].
  destruct (chromium_launch w true launch_args); cbn [fst snd app].
  - right; right. destruct (page_steps request w) as [mid o].
    cbn [fst snd app]. now rewrite <- app_assoc.
  - right; left. reflexivity.
Qed.

(** An event of the inner body seen in the trace of the handler was emitted
    by the inner body. *)
Lemma inside_try_origin (request : ScrapeRequest.t) (w : World) (ev : event) :
  inside_try ev = true ->
  In ev (fst (scrape_url request w)) ->
  In ev (fst (page_steps request w)).
Proof.
  intros Hev Hin.
  destruct (scrape_url_trace request w) as (logs & Htr & Hlogs).
  rewrite Htr in Hin. apply in_app_or in Hin as [Hin|Hin].
  - destruct (browser_scope_trace_cases request w) as [E|[E|E]];
      rewrite E in Hin; cbn [In] in Hin.
    + destruct Hin as [<-|[]]. discriminate Hev.
    + destruct Hin as [<-|[<-|[<-|[]]]]; discriminate Hev.
    + destruct Hin as [<-|[<-|Hin]]; try discriminate Hev.
      apply in_app_or in Hin as [Hin|Hin]; [exact Hin|].
      cbn [In] in Hin. destruct Hin as [<-|[<-|[]]]; discriminate Hev.
  - rewrite Forall_forall in Hlogs. destruct (Hlogs ev Hin) as [msg ->].
    discriminate Hev.
Qed.

(** With a browser at hand the events of the inner body are all kept. *)
Lemma inside_try_kept (request : ScrapeRequest.t) (w : World) (ev : event) :
  async_playwright_start w = Returns tt ->
  chromium_launch w true launch_args = Returns tt ->
  In ev (fst (page_steps request w)) ->
  In ev (fst (scrape_url request w)).
Proof.
  intros Hs Hl Hin.
  destruct (scrape_url_trace request w) as (logs & -> & _).
  rewrite (browser_scope_launched request w Hs Hl).
  apply in_or_app. left. right. right. apply in_or_app. now left.
Qed.

(** Lines 77-81 and 92-95: the arguments of the two waits. *)
Lemma page_steps_deadlines (request : ScrapeRequest.t) (w : World) :
  (forall u ms wu,
      In (EvGoto u ms wu) (fst (page_steps request w)) ->
      exists t, ScrapeRequest.timeout request = Some t /\ ms = t * 1000)
  /\ (forall s ms,
        In (EvWaitForSelector s ms) (fst (page_steps request w)) ->
        exists t, ScrapeRequest.timeout request = Some t /\ ms = t * 1000).
Proof.
  split; intros *; exec; cbn [In]; intros H;
    repeat match goal with
      | H : _ \/ _ |- _ => destruct H as [H|H]
      | H : False |- _ => destruct H
      | H : _ = _ :> event |- _ => (discriminate H || (injection H as; subst))
      end;
    eauto.
Qed.

(** The navigation is started as soon as the page is set up. *)
Lemma page_steps_goto_called (request : ScrapeRequest.t) (w : World) (t : Z) :
  browser_new_page w USER_AGENT = Returns tt ->
  page_set_viewport_size w 1920 1080 = Returns tt ->
  ScrapeRequest.timeout request = Some t ->
  In (EvGoto (url_str (ScrapeRequest.url request)) (t * 1000) "networkidle")
     (fst (page_steps request w)).
Proof.
  intros Hn Hv Ht. unfold_handler. rewrite Hn, Hv, Ht.
  cbn [fst snd app]. repeat exec_step; cbn [In]; auto.
Qed.

(** The selector wait is started after a navigation that gave a response. *)
Lemma page_steps_selector_called (request : ScrapeRequest.t) (w : World)
  (t : Z) (sel : string) (response : Response) :
  browser_new_page w USER_AGENT = Returns tt ->
  page_set_viewport_size w 1920 1080 = Returns tt ->
  ScrapeRequest.timeout request = Some t ->
  page_goto w (url_str (ScrapeRequest.url request)) (t * 1000) "networkidle"
  = Returns (Some response) ->
  ScrapeRequest.wait_for_selector request = Some sel ->
  sel <> ""%string ->
  In (EvWaitForSelector sel (t * 1000)) (fst (page_steps request w)).
Proof.
  intros Hn Hv Ht Hg Hsel Hne.
  assert (Htruthy : truthy_str (Some sel) = true).
  { cbn. now destruct (String.eqb_spec sel "") as [->|_]. }
  unfold_handler. rewrite Hn, Hv, Ht, Hg, Hsel, Htruthy.
  cbn [fst snd app]. repeat exec_step; cbn [In]; auto.
Qed.

(** Lines 100-101 on a wait time that is zero or negative. *)
Lemma wait_time_step_skipped (request : ScrapeRequest.t) (w : World) (n : Z) :
  ScrapeRequest.wait_time request = Some n ->
  n <= 0 ->
  wait_time_step request w = ([], Returns tt).
Proof.
  intros Hwt Hn. unfold wait_time_step. rewrite Hwt. cbn [truthy_int gt_zero].
  replace (0 <? n) with false by (symmetry; apply Z.ltb_ge; exact Hn).
  now rewrite andb_false_r.
Qed.

(** The only sleep of the inner body is the one of lines 100-101. *)
Lemma page_steps_sleeps (request : ScrapeRequest.t) (w : World) :
  count is_sleep (fst (page_steps request w))
  = count is_sleep (fst (wait_time_step request w))
  \/ count is_sleep (fst (page_steps request w)) = 0%nat.
Proof.
  exec; cbn; auto.
Qed.

(** A request whose wait time is zero or negative never sleeps. *)
Lemma no_sleep_when_skipped (request : ScrapeRequest.t) (w : World) (n : Z) :
  ScrapeRequest.wait_time request = Some n ->
  n <= 0 ->
  count is_sleep (fst (scrape_url request w)) = 0%nat.
Proof.
  intros Hwt Hn.
  assert (Hp : count is_sleep (fst (page_steps request w)) = 0%nat).
  { destruct (page_steps_sleeps request w) as [E|E]; [|exact E].
    now rewrite E, (wait_time_step_skipped request w n Hwt Hn). }
  destruct (scrape_url_trace request w) as (logs & -> & Hlogs).
  rewrite count_app.
  assert (Hl : count is_sleep logs = 0%nat).
  { apply count_none. eapply Forall_impl; [|exact Hlogs].
    now intros ev [msg ->]. }
  rewrite Hl.
  destruct (browser_scope_trace_cases request w) as [E|[E|E]]; rewrite E;
    rewrite ?count_cons, ?count_app, ?count_cons, ?count_nil, ?Hp;
    reflexivity.
Qed.

(** *** Where an exception comes from *)

Lemma page_steps_raises_origin (request : ScrapeRequest.t) (w : World)
  (e : exn) :
  snd (page_steps request w) = Raises e -> raised_in_scope w request e.
Proof.
  exec; intros H; try discriminate H; injection H as <-;
    try match goal with
      | Hf : truthy_str None = true |- _ => discriminate Hf
      end;
    eauto using raised_in_scope.
Qed.

Lemma browser_scope_raises_origin (request : ScrapeRequest.t) (w : World)
  (e : exn) :
  snd (browser_scope request w) = Raises e -> raised_in_scope w request e.
Proof.
  pose proof (page_steps_raises_origin request w) as Hp.
  unfold browser_scope, async_with, try_finally, bind, call.
  destruct (async_playwright_start w) eqn:Es; cbn [fst snd app].
  - destruct (chromium_launch w true launch_args) eqn:El; cbn [fst snd app].
    + destruct (page_steps request w) as [mid o]; cbn [fst snd app] in *.
      destruct (browser_close w) eqn:Ec, (async_playwright_stop w) eqn:Ex;
        cbn [fst snd app]; intros H;
        try (injection H as <-); eauto using raised_in_scope.
    + destruct (async_playwright_stop w) eqn:Ex; cbn [fst snd app];
        intros H; injection H as <-; eauto using raised_in_scope.
  - intros H; injection H as <-; eauto using raised_in_scope.
Qed.

(** ** The claims *)

(** C4.  Once the browser is launched, the trace of every request holds
    exactly one launch and exactly one [browser.close()], whatever the exit
    path; everything done with the page lies between the two, and nothing
    after the close uses the browser. *)
Theorem browser_closed_exactly_once (request : ScrapeRequest.t) (w : World) :
  async_playwright_start w = Returns tt ->
  chromium_launch w true launch_args = Returns tt ->
  let tr := fst (scrape_url request w) in
  count is_launch tr = 1%nat
  /\ count is_close tr = 1%nat
  /\ exists mid post,
       tr = EvStart :: EvLaunch true launch_args :: mid ++ EvClose :: post
       /\ Forall (fun ev => inside_try ev = true) mid
       /\ Forall (fun ev => uses_browser ev = false) post.
Proof.
  intros Hs Hl tr.
  destruct (scrape_url_trace request w) as (logs & Htr & Hlogs).
  fold tr in Htr. rewrite (browser_scope_launched request w Hs Hl) in Htr.
  pose proof (page_steps_inside_try request w) as Hmid.
  set (mid := fst (page_steps request w)) in *.
  destruct (inside_try_not_launch_close mid Hmid) as [Hml Hmc].
  assert (Hpost : Forall (fun ev => uses_browser ev = false) (EvStop :: logs)).
  { constructor; [reflexivity|].
    eapply Forall_impl; [|exact Hlogs]. now intros ev [msg ->]. }
  assert (Hshape : tr = EvStart :: EvLaunch true launch_args
                          :: mid ++ EvClose :: EvStop :: logs).
  { rewrite Htr. cbn. now rewrite <- app_assoc. }
  assert (Hpl : count is_launch (EvStop :: logs) = 0%nat).
  { apply count_none. eapply Forall_impl; [|exact Hpost].
    intros ev. unfold uses_browser. now destruct (is_launch ev). }
  assert (Hpc : count is_close (EvStop :: logs) = 0%nat).
  { apply count_none. eapply Forall_impl; [|exact Hpost].
    intros ev. unfold uses_browser.
    destruct (is_close ev); [|reflexivity].
    now rewrite orb_true_r. }
  repeat split.
  - rewrite Hshape.
    change (count is_launch ([EvStart; EvLaunch true launch_args]
                             ++ mid ++ [EvClose] ++ EvStop :: logs) = 1%nat).
    rewrite !count_app, (count_none _ _ Hml), Hpl. reflexivity.
  - rewrite Hshape.
    change (count is_close ([EvStart; EvLaunch true launch_args]
                            ++ mid ++ [EvClose] ++ EvStop :: logs) = 1%nat).
    rewrite !count_app, (count_none _ _ Hmc), Hpc. reflexivity.
  - exists mid, (EvStop :: logs). auto.
Qed.

(** C9.  Every ScrapeResponse that [/scrape] sends has [success = true] and
    [error = None]. *)
Theorem returned_response_is_success (authorization : option string)
  (raw : RawBody) (w : World) (tr : list event) (r : ScrapeResponse.t) :
  post_scrape authorization raw w = (tr, Response200 r) ->
  ScrapeResponse.success r = true /\ ScrapeResponse.error r = None.
Proof.
  unfold post_scrape.
  destruct (security authorization) as [c|e].
  2:{ destruct e; discriminate. }
  destruct (verify_token c) as [tok|e].
  2:{ destruct e; discriminate. }
  destruct (ScrapeRequest_validate raw) as [request|]; [|discriminate].
  destruct (scrape_url request w) as [tr' o] eqn:E.
  destruct o as [r'|e]; cbn.
  - intros H. injection H as _ <-.
    destruct (scrape_url_returns request w r')
      as (t & resp & h & _ & _ & _ & ->).
    + now rewrite E.
    + split; reflexivity.
  - destruct e; discriminate.
Qed.

(** C1 (amended).  When [page.goto] raises asyncio.TimeoutError and the
    browser is torn down normally, [scrape_url] raises HTTPException 408
    whose detail names the [timeout] of the request.  A selector wait that
    fails with an Exception, a timeout included, never decides the status:
    the handler answers exactly as in the world where the wait returned. *)
Theorem timeout_status (request : ScrapeRequest.t) (w : World) :
  (forall t msg,
      async_playwright_start w = Returns tt ->
      chromium_launch w true launch_args = Returns tt ->
      browser_new_page w USER_AGENT = Returns tt ->
      page_set_viewport_size w 1920 1080 = Returns tt ->
      ScrapeRequest.timeout request = Some t ->
      page_goto w (url_str (ScrapeRequest.url request)) (t * 1000)
        "networkidle" = Raises (AsyncioTimeoutError msg) ->
      browser_close w = Returns tt ->
      async_playwright_stop w = Returns tt ->
      snd (scrape_url request w)
      = Raises (HTTPException 408
                  ("Request timeout after " ++ str_int t ++ " seconds")%string
                  []))
  /\ (forall sel t e,
        ScrapeRequest.wait_for_selector request = Some sel ->
        ScrapeRequest.timeout request = Some t ->
        page_wait_for_selector w sel (t * 1000) = Raises e ->
        isinstance_Exception e = true ->
        snd (scrape_url request w)
        = snd (scrape_url request (with_wait_for_selector (Returns tt) w))).
Proof.
  split.
  - intros t msg Hs Hl Hn Hv Ht Hg Hc Hx.
    rewrite (outer_handler_timeout request w _ msg
               (goto_exception_leaves_scope request w t _
                  Hs Hl Hn Hv Ht Hg Hc Hx)).
    cbn [snd]. now rewrite Ht.
  - intros sel t e Hsel Ht Hw He.
    apply scrape_url_outcome_congr; try reflexivity.
    now apply (selector_wait_recovered request w sel t e).
Qed.

(** C2 (the code at the failing input).  The navigation returns no response
    object, every other call succeeds: the HTTPException 400 of line 84 is
    caught by [except Exception] and the request is answered by 500. *)
Theorem null_response_answered_500 :
  scrape_url (request_of None (Some 3) (Some 30))
    (with_goto (Returns None) world_ok)
  = ([EvStart; EvLaunch true launch_args; EvNewPage USER_AGENT;
      EvSetViewport 1920 1080;
      EvGoto "https://example.com/" 30000 "networkidle"; EvClose; EvStop;
      EvLogError ("Scraping error for https://example.com/: "
                  ++ HTTPException_str 400 "Failed to load the page")%string],
     Raises (HTTPException 500
               ("Scraping failed: "
                ++ HTTPException_str 400 "Failed to load the page")%string
               [])).
Proof. reflexivity. Qed.

(** The same for every request and every world of that shape. *)
Lemma null_response_500 (request : ScrapeRequest.t) (w : World) (t : Z) :
  async_playwright_start w = Returns tt ->
  chromium_launch w true launch_args = Returns tt ->
  browser_new_page w USER_AGENT = Returns tt ->
  page_set_viewport_size w 1920 1080 = Returns tt ->
  ScrapeRequest.timeout request = Some t ->
  page_goto w (url_str (ScrapeRequest.url request)) (t * 1000) "networkidle"
  = Returns None ->
  browser_close w = Returns tt ->
  async_playwright_stop w = Returns tt ->
  snd (scrape_url request w)
  = Raises (HTTPException 500
              ("Scraping failed: "
               ++ HTTPException_str 400 "Failed to load the page")%string []).
Proof.
  intros Hs Hl Hn Hv Ht Hg Hc Hx.
  pose proof (null_response_leaves_scope request w t Hs Hl Hn Hv Ht Hg Hc Hx)
    as H.
  destruct (browser_scope request w) as [tr o] eqn:E. cbn [snd] in H. subst o.
  now rewrite (outer_handler_exception request w tr _ E).
Qed.

(** Behind any bearer scheme: credentials with a token other than the
    configured one get the 401 of [verify_token] whatever the body, and a
    request that the scheme turns down gets the answer of the scheme.  No
    browser work is done either way. *)
Lemma invalid_token_401 (authorization : option string) (raw : RawBody)
  (w : World) :
  (forall c,
      security authorization = Returns c ->
      credentials c <> VALID_TOKEN ->
      post_scrape authorization raw w
      = ([], ErrorResponse 401 "Invalid authentication token"
               [("WWW-Authenticate", "Bearer")]))
  /\ (forall e,
        security authorization = Raises e ->
        post_scrape authorization raw w
        = ([], response_of Response200 (Raises e))).
Proof.
  split.
  - intros c Hc Hne. unfold post_scrape, verify_token. rewrite Hc.
    destruct (String.eqb_spec (credentials c) VALID_TOKEN) as [Heq|_].
    + now destruct Hne.
    + reflexivity.
  - intros e He. unfold post_scrape. now rewrite He.
Qed.

(** C5.  An authenticated request whose selector never appears (the wait
    raises an Exception, its timeout for one) is still answered by 200 with
    the HTML of the page; the miss shows up only as a warning in the log. *)
Theorem selector_miss_non_fatal (authorization : option string)
  (raw : RawBody) (w : World) (c : HTTPAuthorizationCredentials)
  (request : ScrapeRequest.t) (sel : string) (t : Z) (response : Response)
  (h : string) (e : exn) :
  security authorization = Returns c ->
  credentials c = VALID_TOKEN ->
  ScrapeRequest_validate raw = Some request ->
  ScrapeRequest.wait_for_selector request = Some sel ->
  sel <> ""%string ->
  cooperates w request t response h ->
  page_wait_for_selector w sel (t * 1000) = Raises e ->
  isinstance_Exception e = true ->
  post_scrape authorization raw w
  = ([EvStart; EvLaunch true launch_args; EvNewPage USER_AGENT;
      EvSetViewport 1920 1080;
      EvGoto (url_str (ScrapeRequest.url request)) (t * 1000) "networkidle";
      EvWaitForSelector sel (t * 1000);
      EvLogWarning ("Selector " ++ sel ++ " not found: " ++ str_exn e)%string]
       ++ fst (wait_time_step request w)
       ++ [EvContent; EvClose; EvStop],
     Response200 (success_response request response h))
  /\ http_status (snd (post_scrape authorization raw w)) = Some 200
  /\ ScrapeResponse.html (success_response request response h) = h.
Proof.
  intros Hc Htok Hv Hsel Hne Hco Hw He.
  pose proof Hco as (_ & _ & _ & _ & Ht & _).
  pose proof (wait_for_selector_step_miss request w sel t e Hsel Hne Ht Hw He)
    as Hstep.
  rewrite (post_scrape_authenticated authorization raw w c request Hc Htok Hv).
  rewrite (scrape_url_success request w t response h Hco);
    [|now rewrite Hstep].
  rewrite Hstep. cbn [fst snd app response_of http_status]. auto.
Qed.

(** C6 (amended).  A valid request with the correct token whose navigation
    gives a response is answered by 200 with a ScrapeResponse whose
    [success] is true, [html] is the content of the page, [status_code] is
    the status of the navigation response and [url] is [str] of the URL
    that validation made of the [url] of the body; that same string is the
    URL the browser was sent to. *)
Theorem success_response_fields (authorization : option string)
  (raw : RawBody) (w : World) (c : HTTPAuthorizationCredentials)
  (request : ScrapeRequest.t) (t : Z) (response : Response) (h : string) :
  security authorization = Returns c ->
  credentials c = VALID_TOKEN ->
  ScrapeRequest_validate raw = Some request ->
  cooperates w request t response h ->
  (forall s ms e,
      page_wait_for_selector w s ms = Raises e ->
      isinstance_Exception e = true) ->
  exists s u,
    raw_url raw = Some s
    /\ HttpUrl_validate s = Some u
    /\ snd (post_scrape authorization raw w)
       = Response200
           {| ScrapeResponse.html := h;
              ScrapeResponse.url := url_str u;
              ScrapeResponse.status_code := status response;
              ScrapeResponse.success := true;
              ScrapeResponse.error := None |}
    /\ In (EvGoto (url_str u) (t * 1000) "networkidle")
          (fst (post_scrape authorization raw w)).
Proof.
  intros Hc Htok Hv Hco Hw.
  pose proof Hco as (_ & _ & _ & _ & Ht & _).
  assert (Hurl : exists s,
             raw_url raw = Some s
             /\ HttpUrl_validate s = Some (ScrapeRequest.url request)).
  { unfold ScrapeRequest_validate in Hv.
    destruct (raw_url raw) as [s|]; [|discriminate Hv].
    destruct (HttpUrl_validate s) as [u|] eqn:Eu; [|discriminate Hv].
    injection Hv as <-. cbn. eauto. }
  destruct Hurl as (s & Hs & Hu).
  exists s, (ScrapeRequest.url request). split; [exact Hs|].
  split; [exact Hu|].
  rewrite (post_scrape_authenticated authorization raw w c request Hc Htok Hv).
  rewrite (scrape_url_success request w t response h Hco)
    by now apply (wait_for_selector_step_returns request w t).
  split; [reflexivity|].
  cbn [fst app In]. auto 10.
Qed.

(** C8.  The deadline handed to the navigation and the budget handed to
    the selector wait are both the [timeout] that the body of the request
    gives, in milliseconds (a thousand times the seconds), and 30 seconds
    when the body leaves the field out.  Both calls are made with that
    value once the steps before them have succeeded. *)
Theorem deadlines_are_timeout_seconds (raw : RawBody)
  (request : ScrapeRequest.t) (w : World) (t : Z) :
  ScrapeRequest_validate raw = Some request ->
  raw_timeout raw = Given (Some t)
  \/ (raw_timeout raw = Omitted /\ t = 30) ->
  let tr := fst (scrape_url request w) in
  ScrapeRequest.timeout request = Some t
  /\ (forall u ms wu, In (EvGoto u ms wu) tr -> ms = t * 1000)
  /\ (forall s ms, In (EvWaitForSelector s ms) tr -> ms = t * 1000)
  /\ (async_playwright_start w = Returns tt ->
      chromium_launch w true launch_args = Returns tt ->
      browser_new_page w USER_AGENT = Returns tt ->
      page_set_viewport_size w 1920 1080 = Returns tt ->
      In (EvGoto (url_str (ScrapeRequest.url request)) (t * 1000)
            "networkidle") tr
      /\ forall sel response,
          page_goto w (url_str (ScrapeRequest.url request)) (t * 1000)
            "networkidle" = Returns (Some response) ->
          raw_wait_for_selector raw = Given (Some sel) ->
          sel <> ""%string ->
          In (EvWaitForSelector sel (t * 1000)) tr).
Proof.
  intros Hv Hraw tr.
  assert (Hreq : ScrapeRequest.timeout request = Some t
                 /\ forall sel,
                     raw_wait_for_selector raw = Given (Some sel) ->
                     ScrapeRequest.wait_for_selector request = Some sel).
  { unfold ScrapeRequest_validate in Hv.
    destruct (raw_url raw) as [s|]; [|discriminate Hv].
    destruct (HttpUrl_validate s) as [u|]; [|discriminate Hv].
    injection Hv as <-. cbn. split.
    - destruct Hraw as [->|[-> ->]]; reflexivity.
    - intros sel ->. reflexivity. }
  destruct Hreq as [Ht Hselector].
  destruct (page_steps_deadlines request w) as [Hgoto Hsel].
  split; [exact Ht|]. split; [|split].
  - intros u ms wu Hin. apply inside_try_origin in Hin; [|reflexivity].
    destruct (Hgoto u ms wu Hin) as (t' & Ht' & ->).
    rewrite Ht in Ht'. now injection Ht' as <-.
  - intros s ms Hin. apply inside_try_origin in Hin; [|reflexivity].
    destruct (Hsel s ms Hin) as (t' & Ht' & ->).
    rewrite Ht in Ht'. now injection Ht' as <-.
  - intros Hs Hl Hn Hvp. split.
    + apply inside_try_kept; trivial. now apply page_steps_goto_called.
    + intros sel response Hg Hraw_sel Hne. apply inside_try_kept; trivial.
      apply (page_steps_selector_called request w t sel response); auto.
Qed.

(** C10.  The schema puts no bound on [wait_time] and [timeout].  A body
    whose [wait_time] is zero or negative is accepted and no run of the
    request sleeps; a body whose [timeout] is zero or negative is accepted
    and the navigation is called with that value, times a thousand for the
    milliseconds, as its deadline. *)
Theorem schema_accepts_nonpositive (raw : RawBody) (s : string) (u : HttpUrl) :
  raw_url raw = Some s ->
  HttpUrl_validate s = Some u ->
  (forall n,
      n <= 0 ->
      raw_wait_time raw = Given (Some n) ->
      exists request,
        ScrapeRequest_validate raw = Some request
        /\ ScrapeRequest.wait_time request = Some n
        /\ forall w, count is_sleep (fst (scrape_url request w)) = 0%nat)
  /\ (forall t,
        t <= 0 ->
        raw_timeout raw = Given (Some t) ->
        exists request,
          ScrapeRequest_validate raw = Some request
          /\ ScrapeRequest.timeout request = Some t
          /\ forall w,
              (forall u' ms wu,
                  In (EvGoto u' ms wu) (fst (scrape_url request w)) ->
                  ms = t * 1000)
              /\ (async_playwright_start w = Returns tt ->
                  chromium_launch w true launch_args = Returns tt ->
                  browser_new_page w USER_AGENT = Returns tt ->
                  page_set_viewport_size w 1920 1080 = Returns tt ->
                  In (EvGoto (url_str u) (t * 1000) "networkidle")
                     (fst (scrape_url request w)))).
Proof.
  intros Hs Hu. unfold ScrapeRequest_validate. rewrite Hs, Hu. split.
  - intros n Hn Hwt. eexists. split; [reflexivity|]. rewrite Hwt.
    split; [reflexivity|]. intros w.
    apply no_sleep_when_skipped with (n := n); trivial.
  - intros t Ht Hto. eexists. split; [reflexivity|]. rewrite Hto.
    split; [reflexivity|]. intros w. split.
    + intros u' ms wu Hin. apply inside_try_origin in Hin; [|reflexivity].
      destruct (proj1 (page_steps_deadlines _ w) u' ms wu Hin)
        as (t' & Ht' & ->).
      cbn in Ht'. now injection Ht' as <-.
    + intros Hst Hl Hn Hv. apply inside_try_kept; trivial.
      match goal with
      | |- In _ (fst (page_steps ?r w)) =>
          exact (page_steps_goto_called r w t Hn Hv eq_refl)
      end.
Qed.

(** ** Further properties of the handler *)

(** The scope hands a response over only when the start, the launch, the
    close and the stop all returned. *)
Lemma scrape_url_returns_scope (request : ScrapeRequest.t) (w : World)
  (r : ScrapeResponse.t) :
  snd (scrape_url request w) = Returns r ->
  async_playwright_start w = Returns tt
  /\ chromium_launch w true launch_args = Returns tt
  /\ browser_close w = Returns tt
  /\ async_playwright_stop w = Returns tt
  /\ snd (page_steps request w) = Returns r
  /\ fst (scrape_url request w)
     = EvStart :: EvLaunch true launch_args
         :: fst (page_steps request w) ++ [EvClose; EvStop].
Proof.
  unfold scrape_url, try_except, scrape_handler, browser_scope, async_with,
    try_finally, bind, call, emit, raise.
  destruct (async_playwright_start w) as [[]|]; cbn [fst snd app].
  - destruct (chromium_launch w true launch_args) as [[]|];
      cbn [fst snd app].
    + destruct (page_steps request w) as [mid o]; cbn [fst snd app].
      destruct (browser_close w) as [[]|], (async_playwright_stop w) as [[]|],
        o; cbn [fst snd app]; split_handler; intros H;
        try discriminate H.
      rewrite <- app_assoc. auto 10.
    + destruct (async_playwright_stop w); cbn [fst snd app]; split_handler;
        intros H; discriminate H.
  - split_handler; intros H; discriminate H.
Qed.

(** The inner body returns only after every one of its steps returned. *)
Lemma page_steps_returns_trace (request : ScrapeRequest.t) (w : World)
  (r : ScrapeResponse.t) :
  snd (page_steps request w) = Returns r ->
  exists t response h,
    ScrapeRequest.timeout request = Some t
    /\ page_goto w (url_str (ScrapeRequest.url request)) (t * 1000)
         "networkidle" = Returns (Some response)
    /\ snd (wait_for_selector_step request w) = Returns tt
    /\ snd (wait_time_step request w) = Returns tt
    /\ page_content w = Returns h
    /\ r = success_response request response h
    /\ fst (page_steps request w)
       = [EvNewPage USER_AGENT; EvSetViewport 1920 1080;
          EvGoto (url_str (ScrapeRequest.url request)) (t * 1000)
            "networkidle"]
           ++ fst (wait_for_selector_step request w)
           ++ fst (wait_time_step request w) ++ [EvContent].
Proof.
  unfold page_steps, py_mul, bind, call, ret, raise.
  destruct (browser_new_page w USER_AGENT); [|discriminate].
  destruct (page_set_viewport_size w 1920 1080); [|discriminate].
  destruct (ScrapeRequest.timeout request) as [t|]; [|discriminate].
  destruct (page_goto w _ _ _) as [[response|]|] eqn:Eg;
    cbn [fst snd app]; try discriminate.
  destruct (wait_for_selector_step request w) as [t1 [[]|]];
    cbn [fst snd app]; [|discriminate].
  destruct (wait_time_step request w) as [t2 [[]|]];
    cbn [fst snd app]; [|discriminate].
  destruct (page_content w) as [h|]; cbn [fst snd app]; [|discriminate].
  intros H. injection H as <-.
  exists t, response, h. rewrite <- ?app_assoc. auto 10.
Qed.

(** X1.  A response leaves the handler only after one complete pass: the
    trace is start, launch, new page, viewport, navigation, the selector
    step, the sleep step, content, close, stop, in this order and with
    nothing else, and the response is built from that navigation and that
    content. *)
Theorem response_only_after_full_pass (request : ScrapeRequest.t)
  (w : World) (r : ScrapeResponse.t) :
  snd (scrape_url request w) = Returns r ->
  exists t response h,
    ScrapeRequest.timeout request = Some t
    /\ page_goto w (url_str (ScrapeRequest.url request)) (t * 1000)
         "networkidle" = Returns (Some response)
    /\ page_content w = Returns h
    /\ r = success_response request response h
    /\ fst (scrape_url request w)
       = [EvStart; EvLaunch true launch_args; EvNewPage USER_AGENT;
          EvSetViewport 1920 1080;
          EvGoto (url_str (ScrapeRequest.url request)) (t * 1000)
            "networkidle"]
           ++ fst (wait_for_selector_step request w)
           ++ fst (wait_time_step request w)
           ++ [EvContent; EvClose; EvStop].
Proof.
  intros H.
  destruct (scrape_url_returns_scope request w r H)
    as (_ & _ & _ & _ & Hp & Htr).
  destruct (page_steps_returns_trace request w r Hp)
    as (t & response & h & Ht & Hg & _ & _ & Hh & Hr & Hmid).
  exists t, response, h. repeat split; trivial.
  rewrite Htr, Hmid. cbn [app]. now rewrite <- !app_assoc.
Qed.

(** What the tests of lines 90 and 100 let through. *)
Lemma truthy_str_nonempty (s : string) :
  truthy_str (Some s) = true -> s <> ""%string.
Proof.
  cbn. destruct (String.eqb_spec s "") as [->|Hne]; [discriminate|trivial].
Qed.

Lemma wait_time_test_positive (n : Z) :
  (truthy_int (Some n) && gt_zero (Some n))%bool = true -> 0 < n.
Proof.
  intros H. apply andb_true_iff in H as [_ H]. now apply Z.ltb_lt.
Qed.

Ltac split_in :=
  repeat match goal with
    | H : _ \/ _ |- _ => destruct H as [H|H]
    | H : False |- _ => destruct H
    | H : _ = ?x :> event |- _ => is_var x; subst x
    | H : _ = _ :> event |- _ => (discriminate H || (injection H as; subst))
    end.

Ltac impossible_test :=
  try match goal with
    | Hf : truthy_str None = true |- _ => discriminate Hf
    | Hf : (truthy_int None && gt_zero None)%bool = true |- _ =>
        discriminate Hf
    end.

(** Lines 90-97, seen from the trace of the inner body. *)
Lemma page_steps_selector_guard (request : ScrapeRequest.t) (w : World) :
  (forall s ms,
      In (EvWaitForSelector s ms) (fst (page_steps request w)) ->
      ScrapeRequest.wait_for_selector request = Some s
      /\ s <> ""%string
      /\ exists t response,
          ScrapeRequest.timeout request = Some t
          /\ ms = t * 1000
          /\ page_goto w (url_str (ScrapeRequest.url request)) (t * 1000)
               "networkidle" = Returns (Some response))
  /\ (forall m,
        In (EvLogWarning m) (fst (page_steps request w)) ->
        exists sel t e,
          ScrapeRequest.wait_for_selector request = Some sel
          /\ ScrapeRequest.timeout request = Some t
          /\ page_wait_for_selector w sel (t * 1000) = Raises e
          /\ isinstance_Exception e = true
          /\ m = ("Selector " ++ sel ++ " not found: " ++ str_exn e)%string).
Proof.
  split; intros *; exec; cbn [In]; intros H; split_in; impossible_test;
    repeat match goal with
      | Hs : truthy_str (Some _) = true |- _ =>
          apply truthy_str_nonempty in Hs
      end;
    eauto 12.
Qed.

(** The selector step neither sleeps nor reads the content. *)
Lemma page_steps_selector_events (request : ScrapeRequest.t) (w : World) :
  (forall n, ~ In (EvSleep n) (fst (wait_for_selector_step request w)))
  /\ ~ In EvContent (fst (wait_for_selector_step request w)).
Proof.
  split; [intros n|]; exec; cbn [In]; intros H; split_in.
Qed.

(** The sleep step sleeps for the wait time of the request, if positive,
    and does nothing else. *)
Lemma wait_time_step_events (request : ScrapeRequest.t) (w : World) :
  (forall n,
      In (EvSleep n) (fst (wait_time_step request w)) ->
      ScrapeRequest.wait_time request = Some n /\ 0 < n)
  /\ ~ In EvContent (fst (wait_time_step request w)).
Proof.
  unfold wait_time_step, call, ret.
  destruct (ScrapeRequest.wait_time request) as [k|];
    [|cbn; split; [intros n []|intros []]].
  destruct (truthy_int (Some k) && gt_zero (Some k))%bool eqn:E;
    cbn [fst In]; [|split; [intros n []|intros []]].
  split.
  - intros n [H|[]]. injection H as <-.
    split; [reflexivity|now apply wait_time_test_positive].
  - intros [H|[]]. discriminate H.
Qed.

(** Lines 100-104, seen from the trace of the inner body. *)
Lemma page_steps_sleep_guard (request : ScrapeRequest.t) (w : World) :
  (forall n,
      In (EvSleep n) (fst (page_steps request w)) ->
      ScrapeRequest.wait_time request = Some n
      /\ 0 < n
      /\ snd (wait_for_selector_step request w) = Returns tt)
  /\ (In EvContent (fst (page_steps request w)) ->
      snd (wait_time_step request w) = Returns tt
      /\ exists t response,
          ScrapeRequest.timeout request = Some t
          /\ page_goto w (url_str (ScrapeRequest.url request)) (t * 1000)
               "networkidle" = Returns (Some response)).
Proof.
  unfold page_steps, py_mul, bind, call, ret, raise.
  destruct (browser_new_page w USER_AGENT); cbn [fst snd app In];
    [|split; [intros n H|intros H]; split_in].
  destruct (page_set_viewport_size w 1920 1080); cbn [fst snd app In];
    [|split; [intros n H|intros H]; split_in].
  destruct (ScrapeRequest.timeout request) as [t|]; cbn [fst snd app In];
    [|split; [intros n H|intros H]; split_in].
  destruct (page_goto w _ _ _) as [[response|]|] eqn:Eg;
    cbn [fst snd app In];
    try (split; [intros n H|intros H]; split_in; fail).
  pose proof (page_steps_selector_events request w) as [Hsel1 Hsel2].
  pose proof (wait_time_step_events request w) as [Hwt1 Hwt2].
  destruct (wait_for_selector_step request w) as [t1 o1].
  destruct (wait_time_step request w) as [t2 o2].
  cbn [fst snd] in Hsel1, Hsel2, Hwt1, Hwt2 |- *.
  assert (Hsleep : forall n, In (EvSleep n) (t1 ++ t2) ->
            ScrapeRequest.wait_time request = Some n /\ 0 < n).
  { intros n H. apply in_app_or in H as [H|H]; [now destruct (Hsel1 n H)|].
    now apply Hwt1. }
  assert (Hnocontent : ~ In EvContent (t1 ++ t2)).
  { intros H. apply in_app_or in H as [H|H]; auto. }
  destruct o1 as [[]|e1]; cbn [fst snd app In].
  - destruct o2 as [[]|e2]; cbn [fst snd app In].
    + assert (Hsleep' : forall n tl,
                (forall k, ~ In (EvSleep k) tl) ->
                In (EvSleep n) (t1 ++ t2 ++ tl) ->
                ScrapeRequest.wait_time request = Some n /\ 0 < n).
      { intros n tl Htl H. rewrite app_assoc in H.
        apply in_app_or in H as [H|H]; [now apply Hsleep|].
        now destruct (Htl n H). }
      destruct (page_content w); cbn [fst snd app In]; split.
      * intros n H. split_in.
        destruct (Hsleep' n [EvContent]) as [Hn Hpos]; auto.
        intros k Hk. cbn [In] in Hk. split_in.
      * intros _. eauto.
      * intros n H. split_in.
        destruct (Hsleep' n [EvContent]) as [Hn Hpos]; auto.
        intros k Hk. cbn [In] in Hk. split_in.
      * intros _. eauto.
    + split.
      * intros n H. split_in.
        destruct (Hsleep n H) as [Hn Hpos]. auto.
      * intros H. split_in. now destruct (Hnocontent H).
  - split.
    + intros n H. split_in. now destruct (Hsel1 n H).
    + intros H. split_in. now destruct (Hsel2 H).
Qed.

(** X2.  The selector wait is called only for a non-empty
    [wait_for_selector], only after a navigation that gave a response, and
    with the timeout of the request as its budget; a warning is logged only
    for an Exception that this wait raised, and says so.  A request whose
    selector is left out, [null] or the empty string never waits and never
    warns. *)
Theorem selector_wait_guarded (request : ScrapeRequest.t) (w : World) :
  (forall s ms,
      In (EvWaitForSelector s ms) (fst (scrape_url request w)) ->
      ScrapeRequest.wait_for_selector request = Some s
      /\ s <> ""%string
      /\ exists t response,
          ScrapeRequest.timeout request = Some t
          /\ ms = t * 1000
          /\ page_goto w (url_str (ScrapeRequest.url request)) (t * 1000)
               "networkidle" = Returns (Some response))
  /\ (forall m,
        In (EvLogWarning m) (fst (scrape_url request w)) ->
        exists sel t e,
          ScrapeRequest.wait_for_selector request = Some sel
          /\ ScrapeRequest.timeout request = Some t
          /\ page_wait_for_selector w sel (t * 1000) = Raises e
          /\ isinstance_Exception e = true
          /\ m = ("Selector " ++ sel ++ " not found: " ++ str_exn e)%string)
  /\ (ScrapeRequest.wait_for_selector request = None
      \/ ScrapeRequest.wait_for_selector request = Some ""%string ->
      (forall s ms,
          ~ In (EvWaitForSelector s ms) (fst (scrape_url request w)))
      /\ (forall m, ~ In (EvLogWarning m) (fst (scrape_url request w)))).
Proof.
  destruct (page_steps_selector_guard request w) as [Hwait Hwarn].
  assert (H1 : forall s ms,
             In (EvWaitForSelector s ms) (fst (scrape_url request w)) ->
             In (EvWaitForSelector s ms) (fst (page_steps request w))).
  { intros s ms. now apply inside_try_origin. }
  assert (H2 : forall m,
             In (EvLogWarning m) (fst (scrape_url request w)) ->
             In (EvLogWarning m) (fst (page_steps request w))).
  { intros m. now apply inside_try_origin. }
  split; [|split].
  - intros s ms H. apply Hwait, H1, H.
  - intros m H. apply Hwarn, H2, H.
  - intros Hnone. split.
    + intros s ms H. destruct (Hwait s ms (H1 s ms H)) as (Hs & Hne & _).
      destruct Hnone as [Hn|Hn]; rewrite Hn in Hs.
      * discriminate Hs.
      * injection Hs as <-. now destruct Hne.
    + intros m H.
      destruct (Hwarn m (H2 m H)) as (sel & t & e & Hs & Ht & Hw & _).
      destruct Hnone as [Hn|Hn]; rewrite Hn in Hs; [discriminate Hs|].
      injection Hs as <-.
      assert (Hin : In (EvWaitForSelector "" (t * 1000))
                      (fst (page_steps request w))).
      { revert Hw. clear - Hn Ht H2 H. intros Hw.
        pose proof (H2 m H) as Hm. revert Hm.
        unfold_handler. rewrite Hn, Ht. cbn [truthy_str String.eqb negb].
        repeat exec_step; cbn [In]; intros Hm; split_in. }
      destruct (Hwait _ _ Hin) as (_ & Hne & _). now destruct Hne.
Qed.

(** X3.  The handler sleeps only for a [wait_time] that is a positive
    integer, and then for exactly that many seconds; the content of the
    page is read only after a navigation that gave a response.  A request
    whose [wait_time] is [null] never sleeps. *)
Theorem sleep_and_content_guarded (request : ScrapeRequest.t) (w : World) :
  (forall n,
      In (EvSleep n) (fst (scrape_url request w)) ->
      ScrapeRequest.wait_time request = Some n /\ 0 < n)
  /\ (In EvContent (fst (scrape_url request w)) ->
      exists t response,
        ScrapeRequest.timeout request = Some t
        /\ page_goto w (url_str (ScrapeRequest.url request)) (t * 1000)
             "networkidle" = Returns (Some response))
  /\ (ScrapeRequest.wait_time request = None ->
      forall n, ~ In (EvSleep n) (fst (scrape_url request w))).
Proof.
  destruct (page_steps_sleep_guard request w) as [Hsleep Hcontent].
  assert (H1 : forall n,
             In (EvSleep n) (fst (scrape_url request w)) ->
             ScrapeRequest.wait_time request = Some n /\ 0 < n).
  { intros n H. apply inside_try_origin in H; [|reflexivity].
    destruct (Hsleep n H) as (Hn & Hpos & _). auto. }
  split; [exact H1|split].
  - intros H. apply inside_try_origin in H; [|reflexivity].
    now destruct (Hcontent H).
  - intros Hnone n H. destruct (H1 n H) as [Hn _].
    rewrite Hnone in Hn. discriminate Hn.
Qed.


Lemma not_Exception_not_timeout (e : exn) :
  isinstance_Exception e = false -> isinstance_TimeoutError e = false.
Proof. now destruct e. Qed.


(** X5.  What is not an [Exception] (a cancellation, say) is never turned
    into an HTTP error: it leaves the handler as it is, without a log
    line.  Raised by the selector wait it is not swallowed by the local
    handler either; the browser is still closed. *)
Theorem non_exception_propagates (request : ScrapeRequest.t) (w : World)
  (e : exn) :
  isinstance_Exception e = false ->
  (forall tr,
      browser_scope request w = (tr, Raises e) ->
      scrape_url request w = (tr, Raises e))
  /\ (forall sel t response,
        ScrapeRequest.wait_for_selector request = Some sel ->
        sel <> ""%string ->
        async_playwright_start w = Returns tt ->
        chromium_launch w true launch_args = Returns tt ->
        browser_new_page w USER_AGENT = Returns tt ->
        page_set_viewport_size w 1920 1080 = Returns tt ->
        ScrapeRequest.timeout request = Some t ->
        page_goto w (url_str (ScrapeRequest.url request)) (t * 1000)
          "networkidle" = Returns (Some response) ->
        page_wait_for_selector w sel (t * 1000) = Raises e ->
        browser_close w = Returns tt ->
        async_playwright_stop w = Returns tt ->
        scrape_url request w
        = ([EvStart; EvLaunch true launch_args; EvNewPage USER_AGENT;
            EvSetViewport 1920 1080;
            EvGoto (url_str (ScrapeRequest.url request)) (t * 1000)
              "networkidle";
            EvWaitForSelector sel (t * 1000); EvClose; EvStop],
           Raises e)).
Proof.
  intros He. pose proof (not_Exception_not_timeout e He) as Ht.
  split.
  - intros tr H. unfold scrape_url, try_except, scrape_handler.
    now rewrite H, Ht, He.
  - intros sel t response Hsel Hne Hs Hl Hn Hv Hto Hg Hw Hc Hx.
    assert (Htruthy : truthy_str (Some sel) = true).
    { cbn. now destruct (String.eqb_spec sel "") as [->|_]. }
    unfold scrape_url, scrape_handler, browser_scope, page_steps,
      wait_for_selector_step, py_mul, async_with, try_except, try_finally,
      bind, call, emit, ret, raise.
    rewrite Hs, Hl, Hn, Hv, Hto, Hg, Hsel, Htruthy, Hw, He, Hc, Hx.
    cbn [fst snd app]. now rewrite Ht, He.
Qed.

(** X6.  An exception of the tear-down replaces whatever the request had
    achieved.  When [browser.close()] raises (and the stop returns), or
    when the stop of Playwright raises, that exception leaves the scope,
    also after a page that was scraped without fault: no response is
    returned, and the answer is the one the outer handlers give to that
    exception. *)
Theorem teardown_exception_wins (request : ScrapeRequest.t) (w : World)
  (e : exn) :
  async_playwright_start w = Returns tt ->
  async_playwright_stop w = Raises e
  \/ (chromium_launch w true launch_args = Returns tt
      /\ browser_close w = Raises e
      /\ async_playwright_stop w = Returns tt) ->
  snd (browser_scope request w) = Raises e
  /\ (forall r, snd (scrape_url request w) <> Returns r)
  /\ (isinstance_TimeoutError e = true ->
      snd (scrape_url request w)
      = Raises (HTTPException 408
                  ("Request timeout after "
                   ++ str_optional_int (ScrapeRequest.timeout request)
                   ++ " seconds")%string []))
  /\ (isinstance_TimeoutError e = false ->
      isinstance_Exception e = true ->
      snd (scrape_url request w)
      = Raises (HTTPException 500 ("Scraping failed: " ++ str_exn e)%string
                  [])).
Proof.
  intros Hs Hcase.
  assert (Hscope : snd (browser_scope request w) = Raises e).
  { unfold browser_scope, async_with, try_finally, bind, call. rewrite Hs.
    destruct Hcase as [Hx|(Hl & Hc & Hx)].
    - destruct (chromium_launch w true launch_args); cbn [fst snd app].
      + destruct (page_steps request w) as [mid o].
        destruct (browser_close w); cbn [fst snd app]; now rewrite Hx.
      + now rewrite Hx.
    - rewrite Hl. cbn [fst snd app].
      destruct (page_steps request w) as [mid o].
      now rewrite Hc, Hx. }
  destruct (browser_scope request w) as [tr o] eqn:E. cbn [snd] in Hscope.
  subst o. split; [reflexivity|]. split; [|split].
  - intros r Hr. revert Hr. unfold scrape_url, try_except, scrape_handler.
    rewrite E. unfold bind, emit, raise. split_handler; discriminate.
  - intros Ht. destruct e; try discriminate Ht.
    now rewrite (outer_handler_timeout request w tr msg E).
  - intros Ht He.
    now rewrite (outer_handler_exception request w tr e E Ht He).
Qed.

(** X7.  Whatever goes wrong, the only Exceptions that leave the handler
    are HTTPException 408, with the timeout message, and HTTPException 500,
    whose detail embeds the message of an Exception raised inside the
    browser scope.  In particular the handler never raises a 400. *)
Theorem only_408_or_500_escape (request : ScrapeRequest.t) (w : World)
  (e : exn) :
  snd (scrape_url request w) = Raises e ->
  isinstance_Exception e = true ->
  e = HTTPException 408
        ("Request timeout after "
         ++ str_optional_int (ScrapeRequest.timeout request)
         ++ " seconds")%string []
  \/ exists e0,
      isinstance_Exception e0 = true
      /\ isinstance_TimeoutError e0 = false
      /\ raised_in_scope w request e0
      /\ e = HTTPException 500 ("Scraping failed: " ++ str_exn e0)%string [].
Proof.
  intros H He.
  pose proof (browser_scope_raises_origin request w) as Horigin.
  revert H. unfold scrape_url, try_except, scrape_handler.
  destruct (browser_scope request w) as [tr [r|e0]]; cbn [fst snd];
    [discriminate|].
  specialize (Horigin e0 eq_refl).
  unfold bind, emit, raise.
  destruct (isinstance_TimeoutError e0) eqn:Et; cbn [fst snd app].
  - intros H. injection H as <-. now left.
  - destruct (isinstance_Exception e0) eqn:Ee; cbn [fst snd app].
    + intros H. injection H as <-. right. exists e0. auto.
    + intros H. injection H as <-. rewrite Ee in He. discriminate He.
Qed.

(** An event of the inner body in a trace shows that the browser was
    launched. *)
Lemma inside_try_launched (request : ScrapeRequest.t) (w : World)
  (ev : event) :
  inside_try ev = true ->
  In ev (fst (scrape_url request w)) ->
  async_playwright_start w = Returns tt
  /\ chromium_launch w true launch_args = Returns tt.
Proof.
  intros Hev Hin.
  destruct (scrape_url_trace request w) as (logs & Htr & Hlogs).
  rewrite Htr in Hin. apply in_app_or in Hin as [Hin|Hin].
  - revert Hin. unfold browser_scope, async_with, try_finally, bind, call.
    destruct (async_playwright_start w) as [[]|]; cbn [fst snd app In].
    + destruct (chromium_launch w true launch_args) as [[]|];
        cbn [fst snd app In]; [auto|].
      intros H. split_in; discriminate Hev.
    + intros H. split_in. discriminate Hev.
  - rewrite Forall_forall in Hlogs. destruct (Hlogs ev Hin) as [msg ->].
    discriminate Hev.
Qed.

(** Lines 70-81: the inner body up to the navigation. *)
Lemma page_steps_goto_prefix (request : ScrapeRequest.t) (w : World)
  (u : string) (ms : Z) (wu : string) :
  In (EvGoto u ms wu) (fst (page_steps request w)) ->
  browser_new_page w USER_AGENT = Returns tt
  /\ page_set_viewport_size w 1920 1080 = Returns tt
  /\ u = url_str (ScrapeRequest.url request)
  /\ wu = "networkidle"%string
  /\ exists rest,
      fst (page_steps request w)
      = EvNewPage USER_AGENT :: EvSetViewport 1920 1080
          :: EvGoto u ms wu :: rest.
Proof.
  exec; cbn [In]; intros H; split_in;
    repeat match goal with a : unit |- _ => destruct a end;
    eauto 10.
Qed.

(** X8.  A navigation is always the fifth call of its request: Playwright
    started, the browser launched headless with the seven fixed flags, the
    page opened with the fixed user agent, the viewport set to 1920 by
    1080, all of them returned.  It goes to the URL of the request and
    waits for the network to be idle. *)
Theorem navigation_preceded_by_setup (request : ScrapeRequest.t)
  (w : World) (u : string) (ms : Z) (wu : string) :
  In (EvGoto u ms wu) (fst (scrape_url request w)) ->
  u = url_str (ScrapeRequest.url request)
  /\ wu = "networkidle"%string
  /\ async_playwright_start w = Returns tt
  /\ chromium_launch w true launch_args = Returns tt
  /\ browser_new_page w USER_AGENT = Returns tt
  /\ page_set_viewport_size w 1920 1080 = Returns tt
  /\ exists rest,
      fst (scrape_url request w)
      = [EvStart; EvLaunch true launch_args; EvNewPage USER_AGENT;
         EvSetViewport 1920 1080; EvGoto u ms wu] ++ rest.
Proof.
  intros Hin.
  destruct (inside_try_launched request w (EvGoto u ms wu) eq_refl Hin)
    as [Hs Hl].
  apply inside_try_origin in Hin; [|reflexivity].
  destruct (page_steps_goto_prefix request w u ms wu Hin)
    as (Hn & Hv & Hu & Hwu & rest & Hrest).
  destruct (scrape_url_trace request w) as (logs & Htr & _).
  rewrite (browser_scope_launched request w Hs Hl), Hrest in Htr.
  repeat split; trivial.
  exists ((rest ++ [EvClose; EvStop]) ++ logs). exact Htr.
Qed.

(** The scope itself writes no error line. *)
Lemma browser_scope_no_error_line (request : ScrapeRequest.t) (w : World)
  (msg : string) :
  ~ In (EvLogError msg) (fst (browser_scope request w)).
Proof.
  pose proof (page_steps_inside_try request w) as Hmid.
  rewrite Forall_forall in Hmid.
  intros Hin.
  destruct (browser_scope_trace_cases request w) as [E|[E|E]];
    rewrite E in Hin; cbn [In] in Hin; split_in.
  apply in_app_or in Hin as [Hin|Hin].
  - specialize (Hmid _ Hin). discriminate Hmid.
  - cbn [In] in Hin. split_in.
Qed.

(** X9.  An error line is written exactly when the request is answered by
    HTTPException 500: never on success, never with the 408 of a timeout,
    never for what is not an Exception. *)
Theorem error_logged_iff_500 (request : ScrapeRequest.t) (w : World) :
  (exists msg, In (EvLogError msg) (fst (scrape_url request w)))
  <-> (exists d, snd (scrape_url request w) = Raises (HTTPException 500 d [])).
Proof.
  pose proof (browser_scope_no_error_line request w) as Hscope.
  unfold scrape_url, try_except, scrape_handler, bind, emit, raise.
  destruct (browser_scope request w) as [tr [r|e]]; cbn [fst snd] in *.
  - split; [intros [msg H]; now destruct (Hscope msg H)|].
    intros [d H]. discriminate H.
  - destruct (isinstance_TimeoutError e) eqn:Et; cbn [fst snd app].
    + split.
      * intros [msg H]. rewrite app_nil_r in H. now destruct (Hscope msg H).
      * intros [d H]. discriminate H.
    + destruct (isinstance_Exception e) eqn:Ee; cbn [fst snd app].
      * split; [eauto|]. intros _. eexists. apply in_or_app. right.
        left. reflexivity.
      * split; [intros [msg H]; now destruct (Hscope msg H)|].
        intros [d H]. injection H as ->. discriminate Ee.
Qed.

(** The outer handlers add nothing to the trace, or one error line. *)
Lemma scrape_url_log_lines (request : ScrapeRequest.t) (w : World) :
  exists logs,
    fst (scrape_url request w) = fst (browser_scope request w) ++ logs
    /\ (logs = [] \/ exists msg, logs = [EvLogError msg]).
Proof.
  unfold scrape_url, try_except, scrape_handler, bind, emit, raise.
  destruct (browser_scope request w) as [tr [r|e]]; cbn [fst snd].
  - exists []. rewrite app_nil_r. auto.
  - destruct (isinstance_TimeoutError e); cbn [fst snd app].
    + exists []. auto.
    + destruct (isinstance_Exception e); cbn [fst snd app].
      * eexists. split; [reflexivity|]. right. eauto.
      * exists []. rewrite app_nil_r. auto.
Qed.

(** No step of the inner body is taken twice. *)
Lemma page_steps_each_once (request : ScrapeRequest.t) (w : World)
  (ev : event) :
  (count (same_kind ev) (fst (page_steps request w)) <= 1)%nat.
Proof.
  exec; rewrite ?count_cons, ?count_nil; destruct ev; cbn [same_kind]; lia.
Qed.

Lemma same_kind_outside (ev x : event) :
  inside_try x = true -> inside_try ev = false -> same_kind ev x = false.
Proof. destruct x, ev; cbn; congruence. Qed.

(** X10.  No operation happens twice in a request: in every trace there is
    at most one start, one launch, one page, one viewport call, one
    navigation, one selector wait, one sleep, one read of the content, one
    close, one stop, one warning and one error line. *)
Theorem each_call_at_most_once (request : ScrapeRequest.t) (w : World)
  (ev : event) :
  (count (same_kind ev) (fst (scrape_url request w)) <= 1)%nat.
Proof.
  destruct (scrape_url_log_lines request w) as (logs & -> & Hlogs).
  pose proof (page_steps_each_once request w ev) as Hmid.
  pose proof (page_steps_inside_try request w) as Hin.
  assert (Hout : inside_try ev = false ->
                 count (same_kind ev) (fst (page_steps request w)) = 0%nat).
  { intros Hev. apply count_none. eapply Forall_impl; [|exact Hin].
    intros x Hx. now apply same_kind_outside. }
  assert (Hl : (count (same_kind ev) logs
                <= if same_kind ev (EvLogError "") then 1 else 0)%nat).
  { destruct Hlogs as [->|[msg ->]]; [rewrite count_nil; lia|].
    rewrite count_cons, count_nil. destruct ev; cbn [same_kind]; lia. }
  rewrite count_app.
  destruct (browser_scope_trace_cases request w) as [E|[E|E]]; rewrite E;
    rewrite ?count_cons, ?count_app, ?count_cons, ?count_nil.
  - destruct ev; cbn [same_kind] in *; lia.
  - destruct ev; cbn [same_kind] in *; lia.
  - destruct ev; cbn [same_kind] in *;
      try (specialize (Hout eq_refl)); lia.
Qed.

(** X11.  Playwright is stopped exactly once whenever it was started, also
    when the launch of the browser fails; when the launch fails there is
    no page call and no close, and when the start itself fails nothing at
    all is done with a browser. *)
Theorem playwright_always_stopped (request : ScrapeRequest.t) (w : World) :
  (async_playwright_start w = Returns tt ->
   count is_stop (fst (scrape_url request w)) = 1%nat)
  /\ (async_playwright_start w = Returns tt ->
      (forall u, chromium_launch w true launch_args <> Returns u) ->
      count on_page (fst (scrape_url request w)) = 0%nat
      /\ count is_close (fst (scrape_url request w)) = 0%nat)
  /\ ((forall u, async_playwright_start w <> Returns u) ->
      count uses_browser (fst (scrape_url request w)) = 0%nat
      /\ count is_stop (fst (scrape_url request w)) = 0%nat).
Proof.
  destruct (scrape_url_log_lines request w) as (logs & -> & Hlogs).
  assert (Hl : count is_stop logs = 0%nat /\ count on_page logs = 0%nat
               /\ count is_close logs = 0%nat
               /\ count uses_browser logs = 0%nat).
  { destruct Hlogs as [->|[msg ->]]; repeat split. }
  destruct Hl as (Hl1 & Hl2 & Hl3 & Hl4).
  pose proof (page_steps_inside_try request w) as Hin.
  assert (Hmid : count is_stop (fst (page_steps request w)) = 0%nat).
  { apply count_none. eapply Forall_impl; [|exact Hin].
    intros x Hx. destruct x; (reflexivity || discriminate Hx). }
  rewrite !count_app, Hl1, Hl2, Hl3, Hl4.
  unfold browser_scope, async_with, try_finally, bind, call.
  split; [|split].
  - intros Hs. rewrite Hs.
    destruct (chromium_launch w true launch_args); cbn [fst snd app].
    + destruct (page_steps request w) as [mid o]. cbn [fst snd app] in *.
      rewrite ?count_cons, ?count_app, ?count_cons, ?count_nil, Hmid.
      reflexivity.
    + reflexivity.
  - intros Hs Hlaunch. rewrite Hs.
    destruct (chromium_launch w true launch_args) as [u|e].
    + now destruct (Hlaunch u).
    + split; reflexivity.
  - intros Hstart.
    destruct (async_playwright_start w) as [u|e].
    + now destruct (Hstart u).
    + split; reflexivity.
Qed.

(** ** Further properties of the credential gate and of the endpoint *)

(** X12.  [verify_token] accepts exactly the configured token, compared as
    it stands (no trimming, no change of case, the scheme is not looked
    at), and hands that token back; everything else gets the one 401 with
    its challenge header.  When the environment variable is not set the
    accepted token is the placeholder of line 18. *)
Theorem verify_token_exact (c : HTTPAuthorizationCredentials) :
  (forall tok,
      verify_token c = Returns tok
      <-> credentials c = VALID_TOKEN /\ tok = VALID_TOKEN)
  /\ (forall e,
        verify_token c = Raises e
        <-> credentials c <> VALID_TOKEN
            /\ e = HTTPException 401 "Invalid authentication token"
                    [("WWW-Authenticate", "Bearer")])
  /\ (SCRAPER_AUTH_TOKEN = None ->
      verify_token {| scheme := scheme c;
                      credentials := "your-secret-token-here" |}
      = Returns "your-secret-token-here"%string).
Proof.
  unfold verify_token. split; [|split].
  - intros tok.
    destruct (String.eqb_spec (credentials c) VALID_TOKEN) as [Heq|Hne].
    + split.
      * intros H. injection H as <-. auto.
      * intros [_ ->]. now rewrite Heq.
    + split; [discriminate|]. intros [Heq _]. now destruct Hne.
  - intros e.
    destruct (String.eqb_spec (credentials c) VALID_TOKEN) as [Heq|Hne].
    + split; [discriminate|]. intros [Hne _]. now destruct Hne.
    + split.
      * intros H. injection H as <-. auto.
      * intros [_ ->]. reflexivity.
  - intros Hnone. unfold VALID_TOKEN. rewrite Hnone. reflexivity.
Qed.

(** X13.  Nothing is done with a browser, and nothing is logged, unless the
    request passed the bearer scheme, presented the configured token and
    carried a body that fits the schema; the work done is then that of
    the handler on the validated request. *)
Theorem browser_only_when_authenticated (authorization : option string)
  (raw : RawBody) (w : World) :
  fst (post_scrape authorization raw w) <> [] ->
  exists c request,
    security authorization = Returns c
    /\ credentials c = VALID_TOKEN
    /\ ScrapeRequest_validate raw = Some request
    /\ post_scrape authorization raw w
       = (fst (scrape_url request w),
          response_of Response200 (snd (scrape_url request w))).
Proof.
  unfold post_scrape, verify_token.
  destruct (security authorization) as [c|e]; cbn [fst];
    [|intros H; now destruct H].
  destruct (String.eqb_spec (credentials c) VALID_TOKEN) as [Heq|Hne];
    cbn [fst]; [|intros H; now destruct H].
  destruct (ScrapeRequest_validate raw) as [request|]; cbn [fst];
    [|intros H; now destruct H].
  intros _. exists c, request. repeat split; trivial.
  now destruct (scrape_url request w).
Qed.

(** X15.  An authenticated request with a valid body is answered by 200,
    by 408 or by 500 and by nothing else (no 400, no 401, no 422), unless
    what ends it is not an Exception. *)
Theorem authenticated_status_codes (authorization : option string)
  (raw : RawBody) (w : World) (c : HTTPAuthorizationCredentials)
  (request : ScrapeRequest.t) :
  security authorization = Returns c ->
  credentials c = VALID_TOKEN ->
  ScrapeRequest_validate raw = Some request ->
  (exists r, snd (post_scrape authorization raw w) = Response200 r)
  \/ (exists d, snd (post_scrape authorization raw w) = ErrorResponse 408 d [])
  \/ (exists d, snd (post_scrape authorization raw w) = ErrorResponse 500 d [])
  \/ (exists e,
         snd (post_scrape authorization raw w) = Unhandled e
         /\ isinstance_Exception e = false).
Proof.
  intros Hc Htok Hv.
  rewrite (post_scrape_authenticated authorization raw w c request Hc Htok Hv).
  cbn [snd].
  unfold scrape_url, try_except, scrape_handler, bind, emit, raise.
  destruct (browser_scope request w) as [tr [r|e]]; cbn [fst snd response_of].
  - left. eauto.
  - destruct (isinstance_TimeoutError e) eqn:Et; cbn [fst snd app response_of].
    + right; left. eauto.
    + destruct (isinstance_Exception e) eqn:Ee; cbn [fst snd app response_of].
      * right; right; left. eauto.
      * right; right; right. exists e. split; [|exact Ee].
        destruct e; try discriminate Ee. reflexivity.
Qed.

(** X16.  The defaults at work: a body that gives only [url], in a run
    whose calls all succeed, navigates with a deadline of 30000
    milliseconds, waits for no selector, sleeps 3 seconds, reads the
    content and closes the browser. *)
Theorem defaults_in_action (raw : RawBody) (request : ScrapeRequest.t)
  (w : World) (response : Response) (h : string) :
  ScrapeRequest_validate raw = Some request ->
  raw_wait_for_selector raw = Omitted ->
  raw_wait_time raw = Omitted ->
  raw_timeout raw = Omitted ->
  cooperates w request 30 response h ->
  scrape_url request w
  = ([EvStart; EvLaunch true launch_args; EvNewPage USER_AGENT;
      EvSetViewport 1920 1080;
      EvGoto (url_str (ScrapeRequest.url request)) 30000 "networkidle";
      EvSleep 3; EvContent; EvClose; EvStop],
     Returns (success_response request response h)).
Proof.
  intros Hv Hsel Hwt Hto Hco.
  assert (Hreq : ScrapeRequest.wait_for_selector request = None
                 /\ ScrapeRequest.wait_time request = Some 3).
  { unfold ScrapeRequest_validate in Hv.
    destruct (raw_url raw) as [s|]; [|discriminate Hv].
    destruct (HttpUrl_validate s) as [u|]; [|discriminate Hv].
    injection Hv as <-. cbn. now rewrite Hsel, Hwt. }
  destruct Hreq as [Hs Ht].
  assert (Hstep : wait_for_selector_step request w = ([], Returns tt)).
  { unfold wait_for_selector_step. now rewrite Hs. }
  assert (Hsleep : fst (wait_time_step request w) = [EvSleep 3]).
  { unfold wait_time_step. now rewrite Ht. }
  rewrite (scrape_url_success request w 30 response h Hco);
    [|now rewrite Hstep].
  now rewrite Hstep, Hsleep.
Qed.

(** ** The failure that decides the answer *)

(** The selector step returns when the wait raises nothing but
    Exceptions. *)
Lemma wait_for_selector_step_passes (request : ScrapeRequest.t) (w : World)
  (t : Z) :
  ScrapeRequest.timeout request = Some t ->
  (forall sel e,
      ScrapeRequest.wait_for_selector request = Some sel ->
      page_wait_for_selector w sel (t * 1000) = Raises e ->
      isinstance_Exception e = true) ->
  snd (wait_for_selector_step request w) = Returns tt.
Proof.
  intros Ht Hw.
  unfold wait_for_selector_step, py_mul, try_except, bind, call, emit, ret.
  rewrite Ht.
  destruct (ScrapeRequest.wait_for_selector request) as [sel|];
    [|reflexivity].
  destruct (truthy_str (Some sel)); [|reflexivity].
  destruct (page_wait_for_selector w sel (t * 1000)) as [[]|e] eqn:E;
    [reflexivity|].
  now rewrite (Hw sel e eq_refl E).
Qed.

(** The sleep step is the sleep itself for a positive wait time. *)
Lemma wait_time_step_sleeps (request : ScrapeRequest.t) (w : World) (n : Z) :
  ScrapeRequest.wait_time request = Some n ->
  0 < n ->
  wait_time_step request w = ([EvSleep n], asyncio_sleep w n).
Proof.
  intros Hwt Hn. unfold wait_time_step, call. rewrite Hwt.
  cbn [truthy_int gt_zero].
  replace (0 <? n) with true by (symmetry; now apply Z.ltb_lt).
  replace (n =? 0) with false by (symmetry; apply Z.eqb_neq; lia).
  reflexivity.
Qed.

(** The sleep step returns when the sleep it may make returns. *)
Lemma wait_time_step_passes (request : ScrapeRequest.t) (w : World) :
  (forall n,
      ScrapeRequest.wait_time request = Some n ->
      0 < n ->
      asyncio_sleep w n = Returns tt) ->
  snd (wait_time_step request w) = Returns tt.
Proof.
  intros Hz. unfold wait_time_step, call, ret.
  destruct (ScrapeRequest.wait_time request) as [n|]; [|reflexivity].
  destruct (truthy_int (Some n) && gt_zero (Some n))%bool eqn:E;
    [|reflexivity].
  cbn [snd]. apply Hz; [reflexivity|]. now apply wait_time_test_positive.
Qed.

(** A decisive failure is the exception that leaves the browser scope. *)
Lemma decisive_failure_leaves_scope (request : ScrapeRequest.t) (w : World)
  (e : exn) :
  decisive_failure w request e -> snd (browser_scope request w) = Raises e.
Proof.
  intros H. unfold browser_scope, async_with, try_finally, bind, call.
  destruct H as [e Hs|e Hs Hl Hx|e Hs Hl Hn [Hc Hx]|e Hs Hl Hn Hv [Hc Hx]
                |(Hs & Hl & Hn & Hv) Ht [Hc Hx]
                |e t (Hs & Hl & Hn & Hv) Ht Hg [Hc Hx]
                |e t response n ((Hs & Hl & Hn & Hv) & Ht & Hg & Hw)
                   Hwt Hpos Hz [Hc Hx]
                |e t response ((Hs & Hl & Hn & Hv) & Ht & Hg & Hw)
                   Hz Hh [Hc Hx]
                |e Hs Hl Hc Hx|e Hs Hx].
  - now rewrite Hs.
  - now rewrite Hs, Hl, Hx.
  - rewrite Hs, Hl. unfold page_steps, bind, call. now rewrite Hn, Hc, Hx.
  - rewrite Hs, Hl. unfold page_steps, bind, call.
    now rewrite Hn, Hv, Hc, Hx.
  - rewrite Hs, Hl. unfold page_steps, py_mul, bind, call, raise.
    now rewrite Hn, Hv, Ht, Hc, Hx.
  - rewrite Hs, Hl. unfold page_steps, py_mul, bind, call, ret.
    now rewrite Hn, Hv, Ht, Hg, Hc, Hx.
  - rewrite Hs, Hl. unfold page_steps, py_mul, bind, call, ret.
    rewrite Hn, Hv, Ht, Hg. cbn [fst snd app].
    pose proof (wait_for_selector_step_passes request w t Ht Hw) as Hsel.
    destruct (wait_for_selector_step request w) as [t1 o1].
    cbn [snd] in Hsel. subst o1.
    rewrite (wait_time_step_sleeps request w n Hwt Hpos), Hz.
    now rewrite Hc, Hx.
  - rewrite Hs, Hl. unfold page_steps, py_mul, bind, call, ret.
    rewrite Hn, Hv, Ht, Hg. cbn [fst snd app].
    pose proof (wait_for_selector_step_passes request w t Ht Hw) as Hsel.
    pose proof (wait_time_step_passes request w Hz) as Hsleep.
    destruct (wait_for_selector_step request w) as [t1 o1].
    destruct (wait_time_step request w) as [t2 o2].
    cbn [snd] in Hsel, Hsleep. subst o1 o2.
    now rewrite Hh, Hc, Hx.
  - rewrite Hs, Hl. cbn [fst snd app].
    destruct (page_steps request w) as [mid o]. now rewrite Hc, Hx.
  - rewrite Hs.
    destruct (chromium_launch w true launch_args); cbn [fst snd app].
    + destruct (page_steps request w) as [mid o].
      destruct (browser_close w); cbn [fst snd app]; now rewrite Hx.
    + now rewrite Hx.
Qed.

(** C7 (amended).  When a step of the request other than the selector wait
    raises an Exception that is not asyncio.TimeoutError and the tear-down
    after it returns, or when the tear-down itself raises one, the request
    is answered by HTTPException 500 whose detail embeds the message of
    that exception, after one error line that names the URL of the
    request, the only error line of the trace.  Nothing is retried: the
    trace holds at most one launch and one navigation. *)
Theorem decisive_failure_answered_500 (request : ScrapeRequest.t)
  (w : World) (e : exn) :
  decisive_failure w request e ->
  isinstance_Exception e = true ->
  isinstance_TimeoutError e = false ->
  (exists tr,
      scrape_url request w
      = (tr ++ [EvLogError ("Scraping error for "
                            ++ url_str (ScrapeRequest.url request) ++ ": "
                            ++ str_exn e)%string],
         Raises (HTTPException 500 ("Scraping failed: " ++ str_exn e)%string
                   []))
      /\ forall msg, ~ In (EvLogError msg) tr)
  /\ (count is_launch (fst (scrape_url request w)) <= 1)%nat
  /\ (count is_goto (fst (scrape_url request w)) <= 1)%nat.
Proof.
  intros Hfail He Ht. split; [|apply single_attempt].
  pose proof (decisive_failure_leaves_scope request w e Hfail) as Hscope.
  pose proof (browser_scope_no_error_line request w) as Hquiet.
  destruct (browser_scope request w) as [tr o] eqn:E.
  cbn [fst snd] in Hscope, Hquiet. subst o.
  exists tr. split; [|exact Hquiet].
  now apply outer_handler_exception.
Qed.

End Scraper.

(** ** The credential gate behind the bearer scheme *)

(** The scheme turns a request down in one way only. *)
Lemma HTTPBearer_raises (authorization : option string) (e : exn) :
  HTTPBearer authorization = Raises e -> e = not_authenticated.
Proof.
  unfold HTTPBearer. destruct authorization as [header|].
  - destruct (partition_space header) as [scheme credentials].
    destruct ((scheme =? "") || (credentials =? ""))%string.
    + intros H. now injection H as <-.
    + destruct (str_lower scheme =? "bearer")%string; [discriminate|].
      intros H. now injection H as <-.
  - intros H. now injection H as <-.
Qed.

(** C3.  A request to /scrape whose bearer token is missing, or is not the
    configured one, is answered by 401 with the challenge header
    WWW-Authenticate: Bearer, whatever its body is, and without any
    browser work. *)
Theorem invalid_or_missing_token_401 (SCRAPER_AUTH_TOKEN : option string)
  (HTTPException_str : Z -> string -> string)
  (HttpUrl_validate : string -> option HttpUrl)
  (authorization : option string) (raw : RawBody) (w : World) :
  presented_token authorization <> Some (VALID_TOKEN SCRAPER_AUTH_TOKEN) ->
  exists detail,
    post_scrape SCRAPER_AUTH_TOKEN HTTPException_str HttpUrl_validate
      HTTPBearer authorization raw w
    = ([], ErrorResponse 401 detail [("WWW-Authenticate", "Bearer")])
    /\ (detail = "Not authenticated"
        \/ detail = "Invalid authentication token").
Proof.
  unfold presented_token. intros Hne.
  destruct (invalid_token_401 SCRAPER_AUTH_TOKEN HTTPException_str
              HttpUrl_validate HTTPBearer authorization raw w)
    as [Hinvalid Hmissing].
  destruct (HTTPBearer authorization) as [c|e] eqn:E.
  - exists "Invalid authentication token". split; [|now right].
    apply (Hinvalid c eq_refl). intros Heq. apply Hne. now rewrite Heq.
  - exists "Not authenticated". split; [|now left].
    rewrite (Hmissing e eq_refl).
    now rewrite (HTTPBearer_raises authorization e E).
Qed.

(** ** The theorems at concrete requests *)

(** The launch fails: no page call, no close, one log line, 500. *)
Example launch_failure_run :
  scrape_url HTTPException_str_colon request_late
    (with_launch (Raises (PyException "Error" "Executable doesn't exist"))
       world_ok)
  = ([EvStart; EvLaunch true launch_args; EvStop;
      EvLogError
        "Scraping error for https://example.com/: Executable doesn't exist"],
     Raises (HTTPException 500 "Scraping failed: Executable doesn't exist"
               [])).
Proof. reflexivity. Qed.

(** A navigation timeout reported with a class other than
    asyncio.TimeoutError takes the second clause of the outer handler. *)
Example navigation_timeout_other_class_run :
  snd (scrape_url HTTPException_str_colon request_late
         (with_goto (Raises timeout_other) world_ok))
  = Raises (HTTPException 500 "Scraping failed: Timeout 10000ms exceeded."
              []).
Proof. reflexivity. Qed.

(** An explicit [null] for [timeout] passes the schema and fails at the
    multiplication of line 79, after the browser was launched. *)
Example null_timeout_run :
  scrape_url HTTPException_str_colon (request_of None (Some 3) None) world_ok
  = ([EvStart; EvLaunch true launch_args; EvNewPage USER_AGENT;
      EvSetViewport 1920 1080; EvClose; EvStop;
      EvLogError
        ("Scraping error for https://example.com/: "
         ++ "unsupported operand type(s) for *: 'NoneType' and 'int'")],
     Raises (HTTPException 500
               ("Scraping failed: "
                ++ "unsupported operand type(s) for *: 'NoneType' and 'int'")
               [])).
Proof. reflexivity. Qed.

(** C1 does not hold as stated.  The selector wait of this request exceeds
    its budget of 10 seconds, whether the browser reports it as
    asyncio.TimeoutError or as an exception of another class; the endpoint
    answers 200, not 408. *)
Lemma selector_timeout_answered_200 :
  page_wait_for_selector (world_selector_timeout timeout_asyncio)
    "#late" 10000 = Raises timeout_asyncio
  /\ http_status
       (snd (post_scrape (Some "s3cret") HTTPException_str_colon
               HttpUrl_normalise HTTPBearer (Some "Bearer s3cret")
               raw_late (world_selector_timeout timeout_asyncio)))
     = Some 200
  /\ http_status
       (snd (post_scrape (Some "s3cret") HTTPException_str_colon
               HttpUrl_normalise HTTPBearer (Some "Bearer s3cret")
               raw_late (world_selector_timeout timeout_other)))
     = Some 200
  /\ Some 200 <> Some 408.
Proof. repeat split. discriminate. Qed.

Lemma timeout_status_witness :
  snd (scrape_url HTTPException_str_colon request_late world_goto_timeout)
  = Raises (HTTPException 408 "Request timeout after 10 seconds" [])
  /\ snd (scrape_url HTTPException_str_colon request_late
            (world_selector_timeout timeout_asyncio))
     = snd (scrape_url HTTPException_str_colon request_late
              (with_wait_for_selector (Returns tt)
                 (world_selector_timeout timeout_asyncio))).
Proof.
  split.
  - exact (proj1 (timeout_status HTTPException_str_colon request_late
                    world_goto_timeout)
             10 "Timeout 10000ms exceeded."
             eq_refl eq_refl eq_refl eq_refl eq_refl eq_refl eq_refl eq_refl).
  - exact (proj2 (timeout_status HTTPException_str_colon request_late
                    (world_selector_timeout timeout_asyncio))
             "#late" 10 timeout_asyncio eq_refl eq_refl eq_refl eq_refl).
Defined.

Lemma browser_closed_exactly_once_witness :
  count is_launch
    (fst (scrape_url HTTPException_str_colon request_late world_goto_error))
  = 1%nat
  /\ count is_close
       (fst (scrape_url HTTPException_str_colon request_late world_goto_error))
     = 1%nat
  /\ exists mid post,
       fst (scrape_url HTTPException_str_colon request_late world_goto_error)
       = (EvStart :: EvLaunch true launch_args :: mid ++ EvClose :: post)%list
       /\ Forall (fun ev => inside_try ev = true) mid
       /\ Forall (fun ev => uses_browser ev = false) post.
Proof.
  exact (browser_closed_exactly_once HTTPException_str_colon request_late
           world_goto_error eq_refl eq_refl).
Defined.

Lemma selector_miss_non_fatal_witness :
  http_status
    (snd (post_scrape (Some "s3cret") HTTPException_str_colon
            HttpUrl_normalise HTTPBearer (Some "Bearer s3cret")
            raw_late (world_selector_timeout timeout_other)))
  = Some 200.
Proof.
  refine (proj1 (proj2
    (selector_miss_non_fatal (Some "s3cret") HTTPException_str_colon
       HttpUrl_normalise HTTPBearer (Some "Bearer s3cret")
       raw_late (world_selector_timeout timeout_other)
       {| scheme := "Bearer"; credentials := "s3cret" |}
       request_late "#late" 10 {| status := 200 |}
       "<html><body>Example</body></html>" timeout_other
       eq_refl eq_refl eq_refl eq_refl _ _ eq_refl eq_refl))).
  - discriminate.
  - unfold cooperates. repeat split.
Defined.

Lemma returned_response_is_success_witness :
  ScrapeResponse.success (success_response request_late {| status := 200 |}
                            "<html><body>Example</body></html>") = true
  /\ ScrapeResponse.error (success_response request_late {| status := 200 |}
                             "<html><body>Example</body></html>") = None.
Proof.
  exact (returned_response_is_success (Some "s3cret") HTTPException_str_colon
           HttpUrl_normalise HTTPBearer (Some "Bearer s3cret") raw_late
           world_ok _ _ eq_refl).
Defined.

Lemma schema_accepts_nonpositive_witness :
  (exists request,
      ScrapeRequest_validate HttpUrl_normalise
        (raw_of Omitted (Given (Some (-2))) (Given (Some (-5))))
      = Some request
      /\ ScrapeRequest.wait_time request = Some (-2)
      /\ forall w,
          count is_sleep (fst (scrape_url HTTPException_str_colon request w))
          = 0%nat)
  /\ (exists request,
        ScrapeRequest_validate HttpUrl_normalise
          (raw_of Omitted (Given (Some (-2))) (Given (Some (-5))))
        = Some request
        /\ ScrapeRequest.timeout request = Some (-5)
        /\ In (EvGoto "https://example.com/" (-5000) "networkidle")
              (fst (scrape_url HTTPException_str_colon request world_ok))).
Proof.
  pose proof (schema_accepts_nonpositive HTTPException_str_colon
                HttpUrl_normalise
                (raw_of Omitted (Given (Some (-2))) (Given (Some (-5))))
                "https://example.com/" example_url eq_refl eq_refl)
    as [Hwait Htimeout].
  split.
  - apply (Hwait (-2)); [lia|reflexivity].
  - destruct (Htimeout (-5)) as (request & Hv & Ht & Hw); [lia|reflexivity|].
    exists request. repeat split; trivial.
    apply (proj2 (Hw world_ok)); reflexivity.
Defined.

(** ** The further properties at concrete requests *)

Lemma response_only_after_full_pass_witness :
  exists t response h,
    ScrapeRequest.timeout request_late = Some t
    /\ page_goto world_ok (url_str (ScrapeRequest.url request_late))
         (t * 1000) "networkidle" = Returns (Some response)
    /\ page_content world_ok = Returns h
    /\ success_response request_late {| status := 200 |}
         "<html><body>Example</body></html>"
       = success_response request_late response h
    /\ fst (scrape_url HTTPException_str_colon request_late world_ok)
       = ([EvStart; EvLaunch true launch_args; EvNewPage USER_AGENT;
           EvSetViewport 1920 1080;
           EvGoto (url_str (ScrapeRequest.url request_late)) (t * 1000)
             "networkidle"]
            ++ fst (wait_for_selector_step HTTPException_str_colon
                      request_late world_ok)
            ++ fst (wait_time_step request_late world_ok)
            ++ [EvContent; EvClose; EvStop])%list.
Proof.
  exact (response_only_after_full_pass HTTPException_str_colon request_late
           world_ok _ eq_refl).
Defined.

Lemma selector_wait_guarded_witness :
  ScrapeRequest.wait_for_selector request_late = Some "#late"
  /\ "#late" <> ""
  /\ exists t response,
      ScrapeRequest.timeout request_late = Some t
      /\ 10000 = t * 1000
      /\ page_goto world_ok (url_str (ScrapeRequest.url request_late))
           (t * 1000) "networkidle" = Returns (Some response).
Proof.
  apply (proj1 (selector_wait_guarded HTTPException_str_colon request_late
                  world_ok) "#late" 10000).
  cbn. auto 10.
Defined.

Lemma sleep_and_content_guarded_witness :
  ScrapeRequest.wait_time request_late = Some 3 /\ 0 < 3.
Proof.
  apply (proj1 (sleep_and_content_guarded HTTPException_str_colon
                  request_late world_ok) 3).
  cbn. auto 10.
Defined.


Lemma non_exception_propagates_witness :
  scrape_url HTTPException_str_colon request_late
    (world_selector_timeout cancelled)
  = ([EvStart; EvLaunch true launch_args; EvNewPage USER_AGENT;
      EvSetViewport 1920 1080;
      EvGoto "https://example.com/" 10000 "networkidle";
      EvWaitForSelector "#late" 10000; EvClose; EvStop],
     Raises cancelled).
Proof.
  refine (proj2 (non_exception_propagates HTTPException_str_colon
                   request_late (world_selector_timeout cancelled) cancelled
                   eq_refl)
            "#late" 10 {| status := 200 |} eq_refl _ eq_refl eq_refl eq_refl
            eq_refl eq_refl eq_refl eq_refl eq_refl eq_refl).
  discriminate.
Defined.

Lemma teardown_exception_wins_witness :
  snd (scrape_url HTTPException_str_colon request_late
         (with_close (Raises target_closed) world_ok))
  = Raises (HTTPException 500
              "Scraping failed: Target page, context or browser has been closed"
              []).
Proof.
  refine (proj2 (proj2 (proj2
            (teardown_exception_wins HTTPException_str_colon request_late
               (with_close (Raises target_closed) world_ok) target_closed
               eq_refl (or_intror (conj eq_refl (conj eq_refl eq_refl))))))
            eq_refl eq_refl).
Defined.

Lemma only_408_or_500_escape_witness :
  HTTPException 500
    "Scraping failed: net::ERR_NAME_NOT_RESOLVED at https://example.com/" []
  = HTTPException 408
      ("Request timeout after "
       ++ str_optional_int (ScrapeRequest.timeout request_late)
       ++ " seconds") []
  \/ exists e0,
      isinstance_Exception e0 = true
      /\ isinstance_TimeoutError e0 = false
      /\ raised_in_scope world_goto_error request_late e0
      /\ HTTPException 500
           "Scraping failed: net::ERR_NAME_NOT_RESOLVED at https://example.com/"
           []
         = HTTPException 500
             ("Scraping failed: " ++ str_exn HTTPException_str_colon e0) [].
Proof.
  exact (only_408_or_500_escape HTTPException_str_colon request_late
           world_goto_error _ eq_refl eq_refl).
Defined.

Lemma navigation_preceded_by_setup_witness :
  exists rest,
    fst (scrape_url HTTPException_str_colon request_late world_goto_error)
    = ([EvStart; EvLaunch true launch_args; EvNewPage USER_AGENT;
        EvSetViewport 1920 1080;
        EvGoto "https://example.com/" 10000 "networkidle"] ++ rest)%list.
Proof.
  refine (proj2 (proj2 (proj2 (proj2 (proj2 (proj2
            (navigation_preceded_by_setup HTTPException_str_colon
               request_late world_goto_error "https://example.com/" 10000
               "networkidle" _))))))).
  cbn. auto 10.
Defined.

Lemma playwright_always_stopped_witness :
  count is_stop
    (fst (scrape_url HTTPException_str_colon request_late
            (with_launch (Raises target_closed) world_ok))) = 1%nat
  /\ count on_page
       (fst (scrape_url HTTPException_str_colon request_late
               (with_launch (Raises target_closed) world_ok))) = 0%nat
  /\ count is_close
       (fst (scrape_url HTTPException_str_colon request_late
               (with_launch (Raises target_closed) world_ok))) = 0%nat.
Proof.
  pose proof (playwright_always_stopped HTTPException_str_colon request_late
                (with_launch (Raises target_closed) world_ok))
    as (Hstop & Hlaunch & _).
  split; [exact (Hstop eq_refl)|].
  apply (Hlaunch eq_refl). intros u H. discriminate H.
Defined.

Lemma browser_only_when_authenticated_witness :
  exists c request,
    HTTPBearer (Some "Bearer s3cret") = Returns c
    /\ credentials c = VALID_TOKEN (Some "s3cret")
    /\ ScrapeRequest_validate HttpUrl_normalise raw_late = Some request
    /\ post_scrape (Some "s3cret") HTTPException_str_colon HttpUrl_normalise
         HTTPBearer (Some "Bearer s3cret") raw_late world_ok
       = (fst (scrape_url HTTPException_str_colon request world_ok),
          response_of Response200
            (snd (scrape_url HTTPException_str_colon request world_ok))).
Proof.
  apply (browser_only_when_authenticated (Some "s3cret")
           HTTPException_str_colon HttpUrl_normalise HTTPBearer
           (Some "Bearer s3cret") raw_late world_ok).
  discriminate.
Defined.

Lemma authenticated_status_codes_witness :
  (exists r,
      snd (post_scrape (Some "s3cret") HTTPException_str_colon
             HttpUrl_normalise HTTPBearer (Some "Bearer s3cret")
             raw_late world_goto_timeout) = Response200 r)
  \/ (exists d,
         snd (post_scrape (Some "s3cret") HTTPException_str_colon
                HttpUrl_normalise HTTPBearer (Some "Bearer s3cret")
                raw_late world_goto_timeout) = ErrorResponse 408 d [])
  \/ (exists d,
         snd (post_scrape (Some "s3cret") HTTPException_str_colon
                HttpUrl_normalise HTTPBearer (Some "Bearer s3cret")
                raw_late world_goto_timeout) = ErrorResponse 500 d [])
  \/ (exists e,
         snd (post_scrape (Some "s3cret") HTTPException_str_colon
                HttpUrl_normalise HTTPBearer (Some "Bearer s3cret")
                raw_late world_goto_timeout) = Unhandled e
         /\ isinstance_Exception e = false).
Proof.
  exact (authenticated_status_codes (Some "s3cret") HTTPException_str_colon
           HttpUrl_normalise HTTPBearer (Some "Bearer s3cret")
           raw_late world_goto_timeout
           {| scheme := "Bearer"; credentials := "s3cret" |} request_late
           eq_refl eq_refl eq_refl).
Defined.

Lemma defaults_in_action_witness :
  scrape_url HTTPException_str_colon (request_of None (Some 3) (Some 30))
    world_ok
  = ([EvStart; EvLaunch true launch_args; EvNewPage USER_AGENT;
      EvSetViewport 1920 1080;
      EvGoto "https://example.com/" 30000 "networkidle";
      EvSleep 3; EvContent; EvClose; EvStop],
     Returns (success_response (request_of None (Some 3) (Some 30))
                {| status := 200 |} "<html><body>Example</body></html>")).
Proof.
  refine (defaults_in_action HTTPException_str_colon HttpUrl_normalise
            (raw_of Omitted Omitted Omitted)
            (request_of None (Some 3) (Some 30)) world_ok {| status := 200 |}
            "<html><body>Example</body></html>"
            eq_refl eq_refl eq_refl eq_refl _).
  unfold cooperates. repeat split.
Defined.

(** ** The revised claims at concrete requests *)

Lemma invalid_or_missing_token_401_witness :
  (exists detail,
      post_scrape (Some "s3cret") HTTPException_str_colon HttpUrl_normalise
        HTTPBearer None
        {| raw_url := None; raw_wait_for_selector := Omitted;
           raw_wait_time := Omitted; raw_timeout := Omitted |} world_ok
      = ([], ErrorResponse 401 detail [("WWW-Authenticate", "Bearer")])
      /\ (detail = "Not authenticated"
          \/ detail = "Invalid authentication token"))
  /\ (exists detail,
        post_scrape (Some "s3cret") HTTPException_str_colon
          HttpUrl_normalise HTTPBearer (Some "Bearer wrong") raw_scenario
          world_ok
        = ([], ErrorResponse 401 detail [("WWW-Authenticate", "Bearer")])
        /\ (detail = "Not authenticated"
            \/ detail = "Invalid authentication token")).
Proof.
  split.
  - apply (invalid_or_missing_token_401 (Some "s3cret")
             HTTPException_str_colon HttpUrl_normalise None).
    discriminate.
  - apply (invalid_or_missing_token_401 (Some "s3cret")
             HTTPException_str_colon HttpUrl_normalise
             (Some "Bearer wrong")).
    discriminate.
Defined.

(** C6 does not hold as stated for the [url] field.  The body gives the
    URL https://example.com; the response carries https://example.com/,
    the string form of the validated URL, which is not the input. *)
Lemma response_url_is_normalised :
  snd (post_scrape (Some "s3cret") HTTPException_str_colon HttpUrl_normalise
         HTTPBearer (Some "Bearer s3cret") raw_scenario world_ok)
  = Response200
      {| ScrapeResponse.html := "<html><body>Example</body></html>";
         ScrapeResponse.url := "https://example.com/";
         ScrapeResponse.status_code := 200;
         ScrapeResponse.success := true;
         ScrapeResponse.error := None |}
  /\ "https://example.com/" <> "https://example.com".
Proof. split; [reflexivity|discriminate]. Qed.

Lemma success_response_fields_witness :
  exists s u,
    raw_url raw_scenario = Some s
    /\ HttpUrl_normalise s = Some u
    /\ snd (post_scrape (Some "s3cret") HTTPException_str_colon
              HttpUrl_normalise HTTPBearer (Some "Bearer s3cret")
              raw_scenario world_ok)
       = Response200
           {| ScrapeResponse.html := "<html><body>Example</body></html>";
              ScrapeResponse.url := url_str u;
              ScrapeResponse.status_code := 200;
              ScrapeResponse.success := true;
              ScrapeResponse.error := None |}
    /\ In (EvGoto (url_str u) (10 * 1000) "networkidle")
          (fst (post_scrape (Some "s3cret") HTTPException_str_colon
                  HttpUrl_normalise HTTPBearer (Some "Bearer s3cret")
                  raw_scenario world_ok)).
Proof.
  refine (success_response_fields (Some "s3cret") HTTPException_str_colon
            HttpUrl_normalise HTTPBearer (Some "Bearer s3cret") raw_scenario
            world_ok {| scheme := "Bearer"; credentials := "s3cret" |}
            (request_of None (Some 3) (Some 10)) 10 {| status := 200 |}
            "<html><body>Example</body></html>"
            eq_refl eq_refl eq_refl _ _).
  - unfold cooperates. repeat split.
  - intros s ms e H. discriminate H.
Defined.

(** C7 does not hold as stated.  The selector wait of this request fails
    with an error that is no timeout, no navigation failure and no
    authentication failure; lines 96-97 catch it and the endpoint answers
    200, not 500. *)
Lemma selector_error_answered_200 :
  page_wait_for_selector (world_selector_timeout selector_error)
    "div[" 30000 = Raises selector_error
  /\ isinstance_TimeoutError selector_error = false
  /\ http_status
       (snd (post_scrape (Some "s3cret") HTTPException_str_colon
               HttpUrl_normalise HTTPBearer (Some "Bearer s3cret")
               raw_bad_selector (world_selector_timeout selector_error)))
     = Some 200
  /\ Some 200 <> Some 500.
Proof. repeat split. discriminate. Qed.

Lemma decisive_failure_answered_500_witness :
  (exists tr,
      scrape_url HTTPException_str_colon request_late world_goto_error
      = ((tr ++ [EvLogError
                   ("Scraping error for "
                    ++ url_str (ScrapeRequest.url request_late) ++ ": "
                    ++ str_exn HTTPException_str_colon unresolved_host)])%list,
         Raises (HTTPException 500
                   ("Scraping failed: "
                    ++ str_exn HTTPException_str_colon unresolved_host) []))
      /\ forall msg, ~ In (EvLogError msg) tr)
  /\ (count is_launch
        (fst (scrape_url HTTPException_str_colon request_late
                world_goto_error)) <= 1)%nat
  /\ (count is_goto
        (fst (scrape_url HTTPException_str_colon request_late
                world_goto_error)) <= 1)%nat.
Proof.
  refine (decisive_failure_answered_500 HTTPException_str_colon request_late
            world_goto_error unresolved_host _ eq_refl eq_refl).
  apply (failed_goto world_goto_error request_late unresolved_host 10);
    repeat split.
Defined.

Lemma deadlines_are_timeout_seconds_witness :
  (ScrapeRequest.timeout (request_of None (Some 3) (Some 10)) = Some 10
   /\ In (EvGoto "https://example.com/" 10000 "networkidle")
         (fst (scrape_url HTTPException_str_colon
                 (request_of None (Some 3) (Some 10)) world_ok)))
  /\ (ScrapeRequest.timeout (request_of None (Some 3) (Some 30)) = Some 30
      /\ In (EvGoto "https://example.com/" 30000 "networkidle")
            (fst (scrape_url HTTPException_str_colon
                    (request_of None (Some 3) (Some 30)) world_ok))).
Proof.
  split.
  - pose proof (deadlines_are_timeout_seconds HTTPException_str_colon
                  HttpUrl_normalise raw_scenario
                  (request_of None (Some 3) (Some 10)) world_ok 10
                  eq_refl (or_introl eq_refl))
      as (Ht & _ & _ & Hcalled).
    split; [exact Ht|].
    exact (proj1 (Hcalled eq_refl eq_refl eq_refl eq_refl)).
  - pose proof (deadlines_are_timeout_seconds HTTPException_str_colon
                  HttpUrl_normalise (raw_of Omitted Omitted Omitted)
                  (request_of None (Some 3) (Some 30)) world_ok 30
                  eq_refl (or_intror (conj eq_refl eq_refl)))
      as (Ht & _ & _ & Hcalled).
    split; [exact Ht|].
    exact (proj1 (Hcalled eq_refl eq_refl eq_refl eq_refl)).
Defined.
